(** * C# operations plugin: selection-to-declaration compiler

    A shallow embedding of [c-sharp-operations/src/index.ts] (the plugin entry
    point) and of the [CSharpOperationsVisitor] class that follows it in the
    same source file, together with the properties of the generator that
    are stated about it.

    Text is [string]; a JavaScript [throw] is the [Throw] outcome of the
    [result] monad; the schema and the scalar table are finite maps. *)

From Stdlib Require Import Ascii.
From stdpp Require Import base option strings gmap list.

Set Warnings "-register-all".
Local Open Scope string_scope.

(** ** Characters and strings as JavaScript has them *)

Definition nl : string := String (Ascii.ascii_of_nat 10) EmptyString.
Definition dq : string := String (Ascii.ascii_of_nat 34) EmptyString.

(** [arr.join(sep)] on an array of strings. *)
Definition join (sep : string) (arr : list string) : string :=
  String.concat sep arr.

(** [s.startsWith(p)]. *)
Definition startsWith (p s : string) : bool := String.prefix p s.

(** [s.slice(n)]: drop the first [n] characters. *)
Fixpoint sliceFrom (n : nat) (s : string) : string :=
  match n, s with
  | S n', String _ s' => sliceFrom n' s'
  | _, _ => s
  end.

(** [s.endsWith('s')]. *)
Fixpoint endsWith_s (s : string) : bool :=
  match s with
  | EmptyString => false
  | String c EmptyString => if Ascii.ascii_dec c "s"%char then true else false
  | String _ s' => endsWith_s s'
  end.

(** [s.slice(0, -1)]: drop the last character. *)
Fixpoint sliceDropLast (s : string) : string :=
  match s with
  | EmptyString => EmptyString
  | String _ EmptyString => EmptyString
  | String c s' => String c (sliceDropLast s')
  end.

(** [s.toLowerCase()] on the ASCII letters a GraphQL name is made of. *)
Definition lowerAscii (c : Ascii.ascii) : Ascii.ascii :=
  let n := Ascii.nat_of_ascii c in
  if (65 <=? n)%nat && (n <=? 90)%nat then Ascii.ascii_of_nat (n + 32) else c.

Fixpoint toLowerCase (s : string) : string :=
  match s with
  | EmptyString => EmptyString
  | String c s' => String (lowerAscii c) (toLowerCase s')
  end.

(** The global replace of [_gql]: every double quote character of the
    document text is written twice. *)
Fixpoint doubleQuotes (s : string) : string :=
  match s with
  | EmptyString => EmptyString
  | String c s' =>
      if Ascii.ascii_dec c (Ascii.ascii_of_nat 34)
      then String c (String c (doubleQuotes s'))
      else String c (doubleQuotes s')
  end.

(** [sub] occurs somewhere in [s] ([s.includes(sub)]). *)
Fixpoint includes (sub s : string) : bool :=
  String.prefix sub s ||
  match s with
  | EmptyString => false
  | String _ s' => includes sub s'
  end.

(** JavaScript truthiness of a string that may be [undefined]. *)
Definition truthy (s : option string) : bool :=
  match s with
  | Some (String _ _) => true
  | _ => false
  end.

(** Truthiness of a boolean property that may be [undefined]. *)
Definition truthyB (b : option bool) : bool := default false b.

(** String coercion of a value that may be [undefined], as a template
    literal or [+] performs it. *)
Definition coerce (s : option string) : string := default "undefined" s.

(** ** Outcomes of a call

    A call returns, throws, or recurses without end (a cyclic fragment
    spread); the last is what running out of fuel stands for. *)

Inductive exn : Type :=
| Error (msg : string)       (* [throw new Error(msg)] *)
| TypeError (what : string). (* property read on [undefined] *)

Inductive result (A : Type) : Type :=
| Ok (a : A)
| Throw (e : exn)
| OutOfFuel.
Arguments Ok {A} a.
Arguments Throw {A} e.
Arguments OutOfFuel {A}.

#[global] Instance result_ret : MRet result := fun A a => Ok a.
#[global] Instance result_bind : MBind result := fun A B f m =>
  match m with
  | Ok a => f a
  | Throw e => Throw e
  | OutOfFuel => OutOfFuel
  end.

Definition isOk {A} (r : result A) : bool :=
  match r with Ok _ => true | _ => false end.

(** ** GraphQL syntax trees, as far as the generator reads them *)

Inductive TypeNode : Type :=
| NamedType (name : string)
| ListType (type : TypeNode)
| NonNullType (type : TypeNode).

Inductive SelectionNode : Type :=
| Field (name : string) (selectionSet : option (list SelectionNode))
| FragmentSpread (name : string)
| InlineFragment (typeCondition : option string) (selections : list SelectionNode).

(** [Kind] strings that the error messages print. *)
Definition kindOf (s : SelectionNode) : string :=
  match s with
  | Field _ _ => "Field"
  | FragmentSpread _ => "FragmentSpread"
  | InlineFragment _ _ => "InlineFragment"
  end.

Record VariableDefinitionNode : Type := mkVariable {
  variable_name : string;   (* [v.variable.name.value] *)
  variable_type : TypeNode; (* [v.type] *)
}.

Inductive OperationTypeNode : Type := query | mutation | subscription.

Definition operationString (o : OperationTypeNode) : string :=
  match o with
  | query => "query"
  | mutation => "mutation"
  | subscription => "subscription"
  end.

Record OperationDefinitionNode : Type := mkOperation {
  op_operation : OperationTypeNode;
  op_name : option string;  (* [node.name], absent for an anonymous operation *)
  op_variableDefinitions : list VariableDefinitionNode;
  op_selections : list SelectionNode; (* [node.selectionSet.selections] *)
}.

Record FragmentDefinitionNode : Type := mkFragmentDef {
  frag_name : string;
  frag_typeCondition : string;
  frag_selections : list SelectionNode;
}.

Record FieldDefinitionNode : Type := mkFieldDef {
  fd_name : string;
  fd_type : TypeNode;
}.

Record ObjectTypeDefinitionNode : Type := mkObjectType {
  obj_name : string;
  obj_fields : list FieldDefinitionNode;
}.

Record InputValueDefinitionNode : Type := mkInputValue {
  iv_name : string;
  iv_type : TypeNode;
}.

Record InputObjectTypeDefinitionNode : Type := mkInputObject {
  input_name : string;
  input_fields : list InputValueDefinitionNode;
}.

Record EnumTypeDefinitionNode : Type := mkEnumDef {
  enum_name : string;
  enum_values : list string;
}.

Inductive DefinitionNode : Type :=
| FragmentDefinition (f : FragmentDefinitionNode)
| OperationDefinitionD (o : OperationDefinitionNode)
| InputObjectTypeDefinitionD (i : InputObjectTypeDefinitionNode)
| EnumTypeDefinitionD (e : EnumTypeDefinitionNode)
| ObjectTypeDefinition (o : ObjectTypeDefinitionNode)
| OtherDefinition (kind : string).

Record LoadedFragment : Type := mkLoaded {
  lf_node : FragmentDefinitionNode;
  lf_name : string;
  lf_onType : string;
  lf_isExternal : bool;
}.

(** The kinds of named type [schema.getType] can return, as the predicates
    [isScalarType], [isInputObjectType] and [isEnumType] tell them apart.
    The type a name maps to carries that name. *)
Inductive GraphQLNamedType : Type :=
| ScalarType | InputObjectType | EnumType | CompositeType.

(** ** Value type descriptors *)

Inductive ListTypeField : Type :=
| mkListTypeField (required : bool) (type : option ListTypeField).

Definition lt_required (l : ListTypeField) : bool :=
  match l with mkListTypeField r _ => r end.
Definition lt_type (l : ListTypeField) : option ListTypeField :=
  match l with mkListTypeField _ t => t end.

(** [baseType]; after [Object.assign(fieldType, {baseType: {type: ...}})]
    the two flags are [undefined], hence the options. *)
Record BaseTypeField : Type := mkBaseTypeField {
  type : string;
  required : option bool;
  valueType : option bool;
}.

Record CSharpFieldType : Type := mkCSharpFieldType {
  baseType : BaseTypeField;
  listType : option ListTypeField;
}.

(** Modelled from the spec: [getBaseTypeNode] of the visitor base package
    (not under src/): the named base of a type reference, under all its
    list and non-null wrappers. *)
Fixpoint getBaseTypeNode (typeNode : TypeNode) : string :=
  match typeNode with
  | NamedType n => n
  | ListType t | NonNullType t => getBaseTypeNode t
  end.

(** Modelled from the spec: [getListInnerTypeNode] of the C# common package
    (not under src/): the innermost type-reference layer, where "non-null"
    decides the nullability of the base element. *)
Fixpoint getListInnerTypeNode (typeNode : TypeNode) : TypeNode :=
  match typeNode with
  | ListType t => getListInnerTypeNode t
  | NonNullType (ListType t) => getListInnerTypeNode t
  | _ => typeNode
  end.

(** Modelled from the spec: [getListTypeField] of the C# common package
    (not under src/): the list wrappers of a type reference, outermost
    first, each with the inverse of its own nullability; none when the
    reference is not a list. *)
Fixpoint getListTypeField (typeNode : TypeNode) : option ListTypeField :=
  match typeNode with
  | ListType t => Some (mkListTypeField false (getListTypeField t))
  | NonNullType (ListType t) => Some (mkListTypeField true (getListTypeField t))
  | _ => None
  end.

(** Modelled from the spec: [getListTypeDepth] of the C# common package
    (not under src/): the list depth of a descriptor. *)
Fixpoint listDepth (l : ListTypeField) : nat :=
  match l with
  | mkListTypeField _ t =>
      S (match t with Some inner => listDepth inner | None => 0 end)
  end.

Definition getListTypeDepth (l : option ListTypeField) : nat :=
  match l with
  | Some l => listDepth l
  | None => 0
  end.

Definition isNonNull (t : TypeNode) : bool :=
  match t with NonNullType _ => true | _ => false end.

(** Modelled from the spec: the [innerTypeName] accessor of [CSharpFieldType]
    in the C# common package (not under src/): the base type name, marked
    nullable when it is an optional value type. *)
Definition innerTypeName (f : CSharpFieldType) : string :=
  type (baseType f) +:+
  (if truthyB (valueType (baseType f)) && negb (truthyB (required (baseType f)))
   then "?" else "").

(** Modelled from the spec: the [isOuterTypeRequired] accessor of
    [CSharpFieldType] in the C# common package (not under src/). *)
Definition isOuterTypeRequired (f : CSharpFieldType) : bool :=
  match listType f with
  | Some l => lt_required l
  | None => truthyB (required (baseType f))
  end.

(** Modelled from the spec: [wrapFieldType] of the C# common package (not
    under src/): one [listType<...>] wrapper per list level around the inner
    type name. *)
Fixpoint wrapList (inner : string) (l : ListTypeField) (listName : string) :
    string :=
  match l with
  | mkListTypeField _ t =>
      listName +:+ "<" +:+
      match t with
      | Some l' => wrapList inner l' listName
      | None => inner
      end +:+ ">"
  end.

Definition wrapFieldType (fieldType : CSharpFieldType)
    (listTypeField : option ListTypeField) (listName : string) : string :=
  match listTypeField with
  | Some l => wrapList (innerTypeName fieldType) l listName
  | None => innerTypeName fieldType
  end.

(** ** Configuration *)

Inductive DocumentMode : Type :=
| graphQLTag | documentNode | documentNodeImportFragments | external | stringMode.

Record HttpClientConfig : Type := mkHttpClientConfig {
  prodEndpoint : option string;
  devEndpoint : option string;
  useDevIf : option string;
}.

(** [CSharpOperationsRawPluginConfig]: every option may be left out. *)
Record CSharpOperationsRawPluginConfig : Type := mkRawConfig {
  raw_namespaceName : option string;
  raw_operationsClassName : option string;
  raw_namedClient : option string;
  raw_querySuffix : option string;
  raw_mutationSuffix : option string;
  raw_subscriptionSuffix : option string;
  raw_typesafeOperation : option bool;
  raw_httpClientConfig : option HttpClientConfig;
  raw_documentMode : option DocumentMode;
  raw_externalFragments : list LoadedFragment;
  raw_scalars : gmap string string; (* [scalars], the custom scalar mapping *)
}.

(** [CSharpOperationsPluginConfig], the parsed configuration of a visitor. *)
Record CSharpOperationsPluginConfig : Type := mkConfig {
  namespaceName : string;
  operationsClassName : string;
  namedClient : option string;
  querySuffix : string;
  mutationSuffix : string;
  subscriptionSuffix : string;
  typesafeOperation : bool;
  httpClientConfig : option HttpClientConfig;
  documentMode : DocumentMode;
}.

Definition defaultSuffix : string := "GQL".

(** [a || b] on strings. *)
Definition orElse (a : option string) (b : string) : string :=
  if truthy a then coerce a else b.

(** ** Declaration blocks

    The builder state of [CSharpDeclarationBlock]; its rendering, the
    [string] accessor, belongs to the C# common package and is a parameter
    of the development ([blockString] below). *)

Record CSharpDeclarationBlock : Type := mkBlock {
  _access : string;
  _kind : option string;
  _name : option string;
  _implementsStr : list string;
  _block : option string;
}.

Definition newBlock : CSharpDeclarationBlock :=
  {| _access := "public"; _kind := None; _name := None;
     _implementsStr := []; _block := None |}.
Definition access (a : string) (b : CSharpDeclarationBlock) :=
  {| _access := a; _kind := _kind b; _name := _name b;
     _implementsStr := _implementsStr b; _block := _block b |}.
Definition asKind (k : string) (b : CSharpDeclarationBlock) :=
  {| _access := _access b; _kind := Some k; _name := _name b;
     _implementsStr := _implementsStr b; _block := _block b |}.
Definition withName (n : option string) (b : CSharpDeclarationBlock) :=
  {| _access := _access b; _kind := _kind b; _name := n;
     _implementsStr := _implementsStr b; _block := _block b |}.
Definition implements (l : list string) (b : CSharpDeclarationBlock) :=
  {| _access := _access b; _kind := _kind b; _name := _name b;
     _implementsStr := l; _block := _block b |}.
Definition withBlock (s : string) (b : CSharpDeclarationBlock) :=
  {| _access := _access b; _kind := _kind b; _name := _name b;
     _implementsStr := _implementsStr b; _block := Some s |}.

(** ** The schema *)

(** A [GraphQLSchema]: the named types [getType] finds, and the document
    [getCachedDocumentNodeFromSchema] gives for it. *)
Record GraphQLSchema : Type := mkSchema {
  schema_types : gmap string GraphQLNamedType;
  schema_ast : list DefinitionNode;
}.

(** What [convertName] is applied to: a plain name, a name node, or a
    definition or spread node, whose name may be absent. *)
Inductive NameArg : Type :=
| NameOf (s : string)
| NameNodeOf (value : string)
| NodeNamed (name : option string).

(** ** Functions of other packages

    The generator calls these; their code is not part of this source
    file, so the development is parametric in them. *)
Class Helpers : Type := mkHelpers {
  pascalCase : string -> string;                  (* change-case-all *)
  convertSafeName : string -> string;             (* C# common: keyword escape *)
  isValueType : string -> bool;                   (* C# common: value type table *)
  blockString : CSharpDeclarationBlock -> string; (* C# common: [.string] *)
  indentMultiline : string -> nat -> string;      (* visitor base *)
  convertName : NameArg -> string;                (* visitor base *)
  buildScalarsFromConfig :
    GraphQLSchema -> CSharpOperationsRawPluginConfig -> gmap string string;
  print : OperationDefinitionNode -> string;      (* graphql *)
  _transformFragments : OperationDefinitionNode -> list string;
  _includeFragments : list string -> string;
  _prepareDocument : string -> string;
}.

(** ** The visitor *)

Record CSharpOperationsVisitor : Type := mkVisitor {
  _schema : GraphQLSchema;
  _schemaAST : list DefinitionNode;
  _fragments : list LoadedFragment;
  config : CSharpOperationsPluginConfig;
  scalars : gmap string string;
  _collectedOperations : list OperationDefinitionNode;
}.

Definition getType (schema : GraphQLSchema) (name : string) :
    option GraphQLNamedType :=
  schema_types schema !! name.

Section Visitor.
Context `{Helpers}.

(** The constructor: defaults of the configuration, and the switch away
    from the [graphQLTag] document mode, which is also what the base visitor
    takes when the raw configuration names no mode. *)
Definition newVisitor (schema : GraphQLSchema) (fragments : list LoadedFragment)
    (rawConfig : CSharpOperationsRawPluginConfig) : CSharpOperationsVisitor :=
  let mode := default graphQLTag (raw_documentMode rawConfig) in
  {| _schema := schema;
     _schemaAST := schema_ast schema;
     _fragments := fragments;
     config :=
       {| namespaceName := orElse (raw_namespaceName rawConfig) "GraphQLCodeGen";
          operationsClassName :=
            orElse (raw_operationsClassName rawConfig) "GraphQLClient";
          namedClient := raw_namedClient rawConfig;
          querySuffix := orElse (raw_querySuffix rawConfig) defaultSuffix;
          mutationSuffix := orElse (raw_mutationSuffix rawConfig) defaultSuffix;
          subscriptionSuffix :=
            orElse (raw_subscriptionSuffix rawConfig) defaultSuffix;
          typesafeOperation := default false (raw_typesafeOperation rawConfig);
          httpClientConfig := raw_httpClientConfig rawConfig;
          documentMode :=
            match mode with graphQLTag => documentNode | m => m end |};
     scalars := buildScalarsFromConfig schema rawConfig;
     _collectedOperations := [] |}.

Variable this : CSharpOperationsVisitor.

Definition wrapWithNamespace (content name : string) : string :=
  blockString
    (withBlock (indentMultiline content 1)
       (withName (Some name) (asKind "namespace" newBlock))).

Definition wrapWithClass (content name accessKind : string) : string :=
  blockString
    (withBlock (indentMultiline content 1)
       (withName (Some (convertSafeName name))
          (asKind "class" (access accessKind newBlock)))).

(** *** Type Resolver *)

(** [(result.listType || result.baseType).required = false] *)
Definition clearOuterRequired (r : CSharpFieldType) : CSharpFieldType :=
  match listType r with
  | Some (mkListTypeField _ inner) =>
      {| baseType := baseType r;
         listType := Some (mkListTypeField false inner) |}
  | None =>
      {| baseType := {| type := type (baseType r);
                        required := Some false;
                        valueType := valueType (baseType r) |};
         listType := None |}
  end.

Definition resolveFieldType (typeNode : TypeNode) (hasDefaultValue : bool) :
    result CSharpFieldType :=
  let innerType := getBaseTypeNode typeNode in
  let schemaType := getType (_schema this) innerType in
  let listType := getListTypeField typeNode in
  let required := isNonNull (getListInnerTypeNode typeNode) in
  result ←
    match schemaType with
    | Some ScalarType =>
        if truthy (scalars this !! innerType) then
          let baseType := coerce (scalars this !! innerType) in
          Ok {| baseType := {| type := baseType;
                               required := Some required;
                               valueType := Some (isValueType baseType) |};
                listType := listType |}
        else
          Ok {| baseType := {| type := "object";
                               required := Some required;
                               valueType := Some false |};
                listType := listType |}
    | Some InputObjectType =>
        Ok {| baseType := {| type := convertName (NameOf innerType);
                             required := Some required;
                             valueType := Some false |};
              listType := listType |}
    | Some EnumType =>
        Ok {| baseType := {| type := convertName (NameOf innerType);
                             required := Some required;
                             valueType := Some true |};
              listType := listType |}
    | Some CompositeType =>
        Ok {| baseType := {| type := innerType;
                             required := Some required;
                             valueType := Some false |};
              listType := listType |}
    | None => Throw (TypeError "name") (* [schemaType.name] on [undefined] *)
    end;
  Ok (if hasDefaultValue : bool then clearOuterRequired result else result).

(** *** Selection Compiler *)

Definition jsonProperty (wireName : string) : string :=
  "[JsonProperty(" +:+ dq +:+ wireName +:+ dq +:+ ")]".

(** One serializable property: the wire name in the attribute, the
    in-class name in the declaration. *)
Definition propertyText (wireName typeName propertyName : string) : string :=
  indentMultiline
    (join nl [jsonProperty wireName;
              "public " +:+ typeName +:+ " " +:+ propertyName +:+
              " { get; set; }"] +:+ nl) 1.

(** [_schemaAST.definitions.find] of the object type definition whose name
    satisfies [p]. *)
Definition findObjectType (p : string -> bool) :
    option ObjectTypeDefinitionNode :=
  match
    List.find (fun d => match d with
                        | ObjectTypeDefinition o => p (obj_name o)
                        | _ => false
                        end) (_schemaAST this)
  with
  | Some (ObjectTypeDefinition o) => Some o
  | _ => None
  end.

(** The test [selections.length === 1 && selections[0].kind ===
    Kind.FRAGMENT_SPREAD]; it gives the name of [selections[0]]. *)
Definition soleFragmentSpread (selections : list SelectionNode) :
    option string :=
  match selections with
  | [FragmentSpread n] => Some n
  | _ => None
  end.

Definition _getFragmentClassName (spreadName : string) : string :=
  convertName (NodeNamed (Some spreadName)).

(** The message of the two [Unsupported kind] throws: [node.name] is a name
    node, which a template literal prints as [[object Object]]. *)
Definition unsupportedKind (s : SelectionNode) : exn :=
  Error ("Unsupported kind; [object Object] " +:+ kindOf s).

Fixpoint _getFieldDefinition (fuel : nat) (name : string)
    (selectionSet : option (list SelectionNode))
    (parentSchema : option ObjectTypeDefinitionNode) {struct fuel} :
    result string :=
  match fuel with
  | O => OutOfFuel
  | S fuel =>
    match parentSchema with
    | None => Throw (TypeError "fields") (* [parentSchema.fields] *)
    | Some parent =>
      match List.find (fun f => String.eqb (fd_name f) name) (obj_fields parent) with
      | None => Throw (Error ("Field schema not found; " +:+ name))
      | Some fieldSchema =>
        responseType ← resolveFieldType (fd_type fieldSchema) false;
        match selectionSet with
        | None =>
            let responseTypeName :=
              wrapFieldType responseType (listType responseType) "List" in
            Ok (propertyText name responseTypeName
                  (convertSafeName (pascalCase name)))
        | Some selections =>
          let innerClassSchema :=
            findObjectType (String.eqb (type (baseType responseType))) in
          match soleFragmentSpread selections with
          | Some fragmentNode =>
              let className := _getFragmentClassName fragmentNode in
              let '(responseTypeName, responseVariableName) :=
                match listType responseType with
                | Some _ => ("List<" +:+ className +:+ ">", className +:+ "s")
                | None => (className, className)
                end in
              Ok (propertyText name responseTypeName responseVariableName)
          | None =>
              selectionFields ←
                mapM (fun s =>
                        match s with
                        | InlineFragment _ _ => Throw (unsupportedKind s)
                        | FragmentSpread n =>
                            _getFragmentSpreadDefinition fuel n innerClassSchema
                        | Field n ss =>
                            _getFieldDefinition fuel n ss innerClassSchema
                        end) selections;
              let fieldType := responseType in
              let baseTypeName := pascalCase name in
              let baseTypeName :=
                if bool_decide (is_Some (listType fieldType))
                   && endsWith_s baseTypeName
                then sliceDropLast baseTypeName else baseTypeName in
              let baseTypeName := baseTypeName +:+ "Result" in
              let baseTypeName := convertSafeName baseTypeName in
              let selectionType :=
                {| baseType := {| type := baseTypeName;
                                  required := None; valueType := None |};
                   listType := listType fieldType |} in
              let selectionTypeName :=
                wrapFieldType selectionType (listType selectionType) "List" in
              let innerClassDefinition :=
                blockString
                  (withBlock (join nl selectionFields)
                     (withName (Some baseTypeName)
                        (asKind "class" (access "public" newBlock)))) in
              Ok (indentMultiline
                    (join nl [innerClassDefinition;
                              jsonProperty name;
                              "public " +:+ selectionTypeName +:+
                              " Result { get; set; }"] +:+ nl) 1)
          end
        end
      end
    end
  end
with _getFragmentSpreadDefinition (fuel : nat) (name : string)
    (parentSchema : option ObjectTypeDefinitionNode) {struct fuel} :
    result string :=
  match fuel with
  | O => OutOfFuel
  | S fuel =>
    match List.find (fun f => String.eqb (lf_name f) name) (_fragments this) with
    | None => Throw (Error ("Fragment schema not found; " +:+ name))
    | Some fragmentSchema =>
        texts ←
          mapM (fun s =>
                  match s with
                  | InlineFragment _ _ => Throw (unsupportedKind s)
                  | Field n ss => _getFieldDefinition fuel n ss parentSchema
                  | FragmentSpread n =>
                      _getFragmentSpreadDefinition fuel n parentSchema
                  end) (frag_selections (lf_node fragmentSchema));
        Ok (join nl texts)
    end
  end.

(** *** Operation documents *)

Definition _gql (node : OperationDefinitionNode) : string :=
  let fragments := _transformFragments node in
  let doc :=
    _prepareDocument (join nl [print node; _includeFragments fragments]) in
  doubleQuotes doc.

(** [node.name.value]; a read on [undefined] when the operation is
    anonymous. *)
Definition nameValue (node : OperationDefinitionNode) : result string :=
  match op_name node with
  | Some n => Ok n
  | None => Throw (TypeError "value")
  end.

Definition _getDocumentNodeVariable (node : OperationDefinitionNode) :
    result string :=
  match documentMode (config this) with
  | external =>
      name ← nameValue node;
      Ok ("Operations." +:+ name)
  | _ =>
      let gqlBlock := indentMultiline (_gql node) 4 in
      Ok ("@" +:+ dq +:+ nl +:+
    gqlBlock +:+ dq)
  end.

Record InputSignature : Type := mkInputSignature {
  signature : string;
  sig_required : bool;
}.

(** [s.repeat(n)] *)
Definition repeatString (s : string) (n : nat) : string :=
  String.concat "" (replicate n s).

Definition _gqlInputSignature (variable : VariableDefinitionNode) :
    InputSignature :=
  let typeNode := variable_type variable in
  let innerType := getBaseTypeNode typeNode in
  let schemaType := getType (_schema this) innerType in
  let name := variable_name variable in
  let baseType :=
    match schemaType with
    | Some ScalarType => orElse (scalars this !! innerType) "object"
    | _ => innerType
    end in
  let listType := getListTypeField typeNode in
  let required := isNonNull (getListInnerTypeNode typeNode) in
  {| sig_required :=
       match listType with Some l => lt_required l | None => required end;
     signature :=
       match listType with
       | None => name +:+ "=(" +:+ baseType +:+ ")"
       | Some _ =>
           name +:+ "=(" +:+ baseType +:+
           repeatString "[]" (getListTypeDepth listType) +:+ ")"
       end |}.

(** *** Client surface *)

Definition getCSharpImports : string :=
  let imports :=
    ["System"; "System.Collections.Generic"; "System.Threading.Tasks";
     "System.Net.Http"; "System.Net.Http.Headers"; "Newtonsoft.Json";
     "GraphQL"; "GraphQL.Client.Abstractions"] in
  let imports :=
    match httpClientConfig (config this) with
    | Some _ =>
        (imports ++
         ["GraphQL.Client.Serializer.Newtonsoft"; "GraphQL.Client.Http"])%list
    | None => imports
    end in
  join nl (List.map (fun i => "using " +:+ i +:+ ";") imports) +:+ nl.

Definition getClientDeclaration : string :=
  match httpClientConfig (config this) with
  | None => ""
  | Some cfg =>
    if negb (truthy (prodEndpoint cfg)) then "" else
    let clientDeclaration := "private static GraphQLHttpClient _client;" +:+ nl in
    if negb (truthy (useDevIf cfg)) || negb (truthy (devEndpoint cfg)) then
      clientDeclaration +:+
      ("private static GraphQLHttpClient client {" +:+ nl +:+
       "          get {" +:+ nl +:+
       "            if (_client == null) {" +:+ nl +:+
       "              _client = new GraphQLHttpClient(" +:+ dq +:+ coerce (prodEndpoint cfg) +:+ dq +:+ ", new NewtonsoftJsonSerializer());" +:+ nl +:+
       "            }" +:+ nl +:+
       nl +:+
       "            return _client;" +:+ nl +:+
       "          }" +:+ nl +:+
       "        }")
    else
      clientDeclaration +:+
      ("private static GraphQLHttpClient client {" +:+ nl +:+
       "          get {" +:+ nl +:+
       "            if (_client == null) {" +:+ nl +:+
       "              var endpoint = " +:+ coerce (useDevIf cfg) +:+ " ? " +:+ dq +:+ coerce (devEndpoint cfg) +:+ dq +:+ " : " +:+ dq +:+ coerce (prodEndpoint cfg) +:+ dq +:+ ";" +:+ nl +:+
       "              _client = new GraphQLHttpClient(endpoint, new NewtonsoftJsonSerializer());" +:+ nl +:+
       "            }" +:+ nl +:+
       nl +:+
       "            return _client;" +:+ nl +:+
       "          }" +:+ nl +:+
       "        }")
  end.

Definition getHttpRequestClass : string :=
  match httpClientConfig (config this) with
  | None => ""
  | Some _ =>
    nl +:+
    "    internal class GraphQLHttpRequestWithHeaders : GraphQLHttpRequest {" +:+ nl +:+
    "      public string AuthToken { get; set; }" +:+ nl +:+
    "      public Dictionary<string, string> Headers { get; set; }" +:+ nl +:+
    nl +:+
    "      public override HttpRequestMessage ToHttpRequestMessage(" +:+ nl +:+
    "          GraphQLHttpClientOptions options," +:+ nl +:+
    "          IGraphQLJsonSerializer serializer) {" +:+ nl +:+
    "          var r = base.ToHttpRequestMessage(options, serializer);" +:+ nl +:+
    nl +:+
    "          if (AuthToken != null) {" +:+ nl +:+
    "              r.Headers.Authorization = new AuthenticationHeaderValue(" +:+ dq +:+ "Bearer" +:+ dq +:+ ", AuthToken);" +:+ nl +:+
    "          }" +:+ nl +:+
    nl +:+
    "          if (Headers != null) {" +:+ nl +:+
    "              foreach (var h in Headers) {" +:+ nl +:+
    "                  r.Headers.Add(h.Key, h.Value);" +:+ nl +:+
    "              }" +:+ nl +:+
    "          }" +:+ nl +:+
    nl +:+
    "          return r;" +:+ nl +:+
    "      }" +:+ nl +:+
    "    }"
  end.

Definition getHasErrorExtension : string :=
  nl +:+
  "    public static class GraphQLResponseExtensions {" +:+ nl +:+
  "        public static bool HasError<T>(this GraphQLResponse<T> response) {" +:+ nl +:+
  "            return response.Errors != null;" +:+ nl +:+
  "        }" +:+ nl +:+
  "    }".

(** *** Naming *)

Definition _getResponseClassName (node : OperationDefinitionNode) : string :=
  let className := convertName (NodeNamed (op_name node)) +:+ "Payload" in
  if startsWith "Get" className then sliceFrom 3 className else className.

Definition _getVariablesClassName (node : OperationDefinitionNode) : string :=
  convertName (NodeNamed (op_name node)) +:+ "Request".

(** *** Operation Compiler *)

Definition publicClass (name body : string) : CSharpDeclarationBlock :=
  withBlock body
    (withName (Some name) (asKind "class" (access "public" newBlock))).

Definition unknownKind (opr : SelectionNode) : exn :=
  Error ("Unknown kind; " +:+ kindOf opr +:+ " in OperationDefinitionNode").

Definition getResponseClass (fuel : nat) (node : OperationDefinitionNode) :
    result string :=
  let operationSchema :=
    findObjectType
      (fun n => String.eqb (toLowerCase n) (operationString (op_operation node))) in
  fields ←
    mapM (fun opr =>
            match opr with
            | Field n ss => _getFieldDefinition fuel n ss operationSchema
            | _ => Throw (unknownKind opr)
            end) (op_selections node);
  Ok (blockString
        (publicClass (_getResponseClassName node) (nl +:+ join nl fields))).

Definition getFragmentClass (fuel : nat) (node : FragmentDefinitionNode) :
    result string :=
  let fragmentSchema :=
    findObjectType (fun n => String.eqb n (frag_typeCondition node)) in
  fields ←
    mapM (fun opr =>
            match opr with
            | Field n ss => _getFieldDefinition fuel n ss fragmentSchema
            | _ => Throw (unknownKind opr)
            end) (frag_selections node);
  Ok (blockString
        (publicClass (convertName (NodeNamed (Some (frag_name node))))
           (nl +:+ join nl fields))).

(** [for (let i = start; i < start + count; i++) acc = body(i, acc)] *)
Fixpoint forLoop {St : Type} (count start : nat)
    (body : nat -> St -> result St) (acc : St) : result St :=
  match count with
  | O => Ok acc
  | S count' =>
      acc' ← body start acc;
      forLoop count' (S start) body acc'
  end.

(** The callback of [variableDefinitions.map] in [getRequestClass]. *)
Definition requestField (v : VariableDefinitionNode) : result string :=
  inputType ← resolveFieldType (variable_type v) false;
  let inputTypeName := wrapFieldType inputType (listType inputType) "List" in
  let inputVariableName := convertSafeName (pascalCase (variable_name v)) in
  Ok (propertyText (variable_name v) inputTypeName inputVariableName).

(** The body of the first loop of [getRequestClass], at index [i]. *)
Definition constructorParamsStep (variableDefinitions : list VariableDefinitionNode)
    (i : nat) (constructorParams : string) : result string :=
  match variableDefinitions !! i with
  | None => Throw (TypeError "type")
  | Some variable =>
      inputType ← resolveFieldType (variable_type variable) false;
      let inputTypeName := wrapFieldType inputType (listType inputType) "List" in
      let inputName := convertSafeName (variable_name variable) in
      let constructorParams :=
        constructorParams +:+ inputTypeName +:+ " " +:+ inputName in
      Ok (if (i <? length variableDefinitions - 1)%nat
          then constructorParams +:+ ", " else constructorParams)
  end.

(** The body of the second loop of [getRequestClass], at index [i]. *)
Definition constructorBodyStep (variableDefinitions : list VariableDefinitionNode)
    (i : nat) (constructor : string) : result string :=
  match variableDefinitions !! i with
  | None => Throw (TypeError "variable")
  | Some variable =>
      let inputName := convertSafeName (variable_name variable) in
      let inputVariableName :=
        convertSafeName (pascalCase (variable_name variable)) in
      Ok (constructor +:+ nl +:+ "  " +:+ inputVariableName +:+ " = "
          +:+ inputName +:+ ";")
  end.

Definition getRequestClass (node : OperationDefinitionNode) : result string :=
  let variableDefinitions := op_variableDefinitions node in
  if (length variableDefinitions =? 0)%nat then Ok "" else
  fieldTexts ← mapM requestField variableDefinitions;
  let fields := nl +:+ join nl fieldTexts in
  constructorParams ←
    forLoop (length variableDefinitions) 0
      (constructorParamsStep variableDefinitions) "";
  let constructor :=
    "public " +:+ _getVariablesClassName node +:+ "(" +:+ constructorParams
    +:+ ") {" in
  constructor ←
    forLoop (length variableDefinitions) 0
      (constructorBodyStep variableDefinitions) constructor;
  let constructor := constructor +:+ nl +:+ "}" in
  let contents := join nl [fields; constructor] in
  Ok (blockString (publicClass (_getVariablesClassName node) contents)).

Definition enumBlock (node : EnumTypeDefinitionNode) : string :=
  blockString
    (withBlock (indentMultiline (join ("," +:+ nl) (enum_values node)) 1)
       (withName (Some (convertSafeName (convertName (NameNodeOf (enum_name node)))))
          (asKind "enum" (access "public" newBlock)))).

Definition getEnumDefinition (node : EnumTypeDefinitionNode) : string :=
  let enumDefinition := enumBlock node in
  indentMultiline enumDefinition 2.

Definition variablesObjectName : string := "request".
Definition clientArgument : string :=
  match httpClientConfig (config this) with
  | Some _ => ""
  | None => "IGraphQLClient client, "
  end.
Definition httpArguments : string :=
  "string authToken = " +:+ dq +:+ dq +:+
  ", Dictionary<string, string> headers = null".

Definition hasHttpClientConfig : bool :=
  bool_decide (is_Some (httpClientConfig (config this))).

Definition getVariablesArguments (node : OperationDefinitionNode) : string :=
  if (length (op_variableDefinitions node) =? 0)%nat then ""
  else _getVariablesClassName node +:+ " " +:+ variablesObjectName +:+ ", ".

Definition getMutationMethodDefinition (node : OperationDefinitionNode) :
    string :=
  "Task<GraphQLResponse<" +:+ _getResponseClassName node +:+ ">> " +:+ convertName (NodeNamed (op_name node)) +:+ "Async(" +:+ nl +:+
  "                  " +:+ clientArgument +:+ nl +:+
  "                  " +:+ getVariablesArguments node +:+ nl +:+
  "                  " +:+ (if hasHttpClientConfig then httpArguments +:+ ", " else "") +:+ nl +:+
  "                  System.Threading.CancellationToken cancellationToken = default" +:+ nl +:+
  "                )".

Definition getSubscriptionMethodDefinition (node : OperationDefinitionNode) :
    string :=
  "IObservable<GraphQLResponse<" +:+ _getResponseClassName node +:+ ">> CreateSubscriptionStream(" +:+ nl +:+
  "                  " +:+ clientArgument +:+ nl +:+
  "                  " +:+ getVariablesArguments node +:+ nl +:+
  "                  " +:+ (if hasHttpClientConfig then httpArguments else "") +:+ nl +:+
  "            )".

Definition getSubscriptionMethodDefinitionWithHandler
    (node : OperationDefinitionNode) : string :=
  "IObservable<GraphQLResponse<" +:+ _getResponseClassName node +:+ ">> CreateSubscriptionStream(" +:+ nl +:+
  "                  " +:+ clientArgument +:+ nl +:+
  "                  " +:+ getVariablesArguments node +:+ nl +:+
  "                  Action<Exception> exceptionHandler" +:+ nl +:+
  "                  " +:+ (if hasHttpClientConfig then ", " +:+ httpArguments else "") +:+ nl +:+
  "            )".

(** The [switch] on [node.operation]; the [throw] after it cannot be
    reached with the three operation kinds there are. *)
Definition getOperationInterfaceMethods (node : OperationDefinitionNode) :
    string :=
  match op_operation node with
  | query | mutation => getMutationMethodDefinition node +:+ ";"
  | subscription =>
      getSubscriptionMethodDefinition node +:+ ";" +:+ nl +:+
      "                " +:+ getSubscriptionMethodDefinitionWithHandler node +:+ ";"
  end.

Definition getOperationConcreteMethod (node : OperationDefinitionNode) :
    result string :=
  match
    findObjectType
      (fun n => String.eqb (toLowerCase n) (operationString (op_operation node)))
  with
  | None =>
      Throw (Error ("Operation schema not found; " +:+
                    operationString (op_operation node)))
  | Some operationSchema =>
    let inputSignatures :=
      List.map _gqlInputSignature (op_variableDefinitions node) in
    let hasInputArgs := negb (length inputSignatures =? 0)%nat in
    let variablesPart :=
      if hasInputArgs then
        "," +:+ nl +:+
        "          Variables = " +:+ variablesObjectName
      else "" in
    request ←
      match httpClientConfig (config this) with
      | Some _ =>
          docVar ← _getDocumentNodeVariable node;
          name ← nameValue node;
          Ok (nl +:+
            "      var gqlRequest = new GraphQLHttpRequestWithHeaders {" +:+ nl +:+
            "          Query = " +:+ docVar +:+ "," +:+ nl +:+
            "          AuthToken = authToken," +:+ nl +:+
            "          Headers = headers," +:+ nl +:+
            "          OperationName = " +:+ dq +:+ name +:+ dq +:+ variablesPart +:+ nl +:+
            "      };")
      | None =>
          docVar ← _getDocumentNodeVariable node;
          name ← nameValue node;
          Ok (nl +:+
            "      var gqlRequest = new GraphQLRequest {" +:+ nl +:+
            "          Query = " +:+ docVar +:+ "," +:+ nl +:+
            "          OperationName = " +:+ dq +:+ name +:+ dq +:+ variablesPart +:+ nl +:+
            "      };")
      end;
    match op_operation node with
    | query | mutation =>
        Ok (nl +:+
            "          public " +:+ getMutationMethodDefinition node +:+ " {" +:+ nl +:+
            "            " +:+ request +:+ nl +:+
            "            return client.Send" +:+ obj_name operationSchema +:+ "Async<" +:+ _getResponseClassName node +:+ ">(gqlRequest, cancellationToken);" +:+ nl +:+
            "          }" +:+ nl +:+
            "        ")
    | subscription =>
        Ok (nl +:+
            "          public " +:+ getSubscriptionMethodDefinition node +:+ " {" +:+ nl +:+
            "            " +:+ request +:+ nl +:+
            "            return client.CreateSubscriptionStream<" +:+ _getResponseClassName node +:+ ">(gqlRequest);" +:+ nl +:+
            "          }" +:+ nl +:+
            nl +:+
            "          public " +:+ getSubscriptionMethodDefinitionWithHandler node +:+ " {" +:+ nl +:+
            "            " +:+ request +:+ nl +:+
            "            return client.CreateSubscriptionStream<" +:+ _getResponseClassName node +:+ ">(gqlRequest, exceptionHandler);" +:+ nl +:+
            "          }" +:+ nl +:+
            "        ")
    end
  end.

(** *** Visitor handlers *)

(** [this._collectedOperations.push(node)] *)
Definition pushOperation (node : OperationDefinitionNode) :
    CSharpOperationsVisitor :=
  {| _schema := _schema this; _schemaAST := _schemaAST this;
     _fragments := _fragments this; config := config this;
     scalars := scalars this;
     _collectedOperations := (_collectedOperations this ++ [node])%list |}.

Definition nonEmpty (s : string) : bool :=
  match s with EmptyString => false | _ => true end.

(** The handler returns [null] or text, and leaves the visitor with its
    collected operations; a throw after the push leaves the push done. *)
Definition OperationDefinition (fuel : nat) (node : OperationDefinitionNode) :
    CSharpOperationsVisitor * result (option string) :=
  if negb (truthy (op_name node)) then (this, Ok None)
  else
    (pushOperation node,
     typesafeOperations ←
       (if typesafeOperation (config this) then
          requestClass ← getRequestClass node;
          responseClass ← getResponseClass fuel node;
          concreteMethod ← getOperationConcreteMethod node;
          let typesafeOperations :=
            nl +:+
            "      " +:+ requestClass +:+ nl +:+
            "      " +:+ responseClass +:+ nl +:+
            "      public partial class " +:+ operationsClassName (config this) +:+ " {" +:+ nl +:+
            "        " +:+ concreteMethod +:+ nl +:+
            "      }" in
          Ok (indentMultiline typesafeOperations 3)
        else Ok "");
     let content := typesafeOperations in
     Ok (Some (join nl (List.filter nonEmpty [content])))).

Definition InputObjectTypeDefinition (node : InputObjectTypeDefinitionNode) :
    result string :=
  if negb (typesafeOperation (config this)) then Ok "" else
  fields ←
    mapM (fun f =>
            inputType ← resolveFieldType (iv_type f) false;
            let inputTypeName :=
              wrapFieldType inputType (listType inputType) "List" in
            Ok (propertyText (iv_name f) inputTypeName
                  (convertSafeName (pascalCase (iv_name f)))))
         (input_fields node);
  let inputClass :=
    blockString
      (publicClass
         (convertSafeName (convertName (NodeNamed (Some (input_name node)))))
         (nl +:+ join nl (List.filter nonEmpty fields))) in
  Ok (indentMultiline inputClass 2).

Definition EnumTypeDefinition (node : EnumTypeDefinitionNode) : string :=
  if negb (typesafeOperation (config this)) then "" else
  let enumDefinition := enumBlock node in
  indentMultiline enumDefinition 2.

End Visitor.

(** ** The plugin entry point *)

Section Plugin.
Context `{Helpers}.

(** [list.forEach(x => { buffer += f(x); buffer += '\n' })] *)
Fixpoint forEachAppend {A : Type} (f : A -> result string) (l : list A)
    (buffer : string) : result string :=
  match l with
  | [] => Ok buffer
  | x :: l' =>
      definition ← f x;
      forEachAppend f l' (buffer +:+ definition +:+ nl)
  end.

Definition fragmentsOf (defs : list DefinitionNode) :
    list FragmentDefinitionNode :=
  omap (fun d => match d with FragmentDefinition f => Some f | _ => None end) defs.
Definition operationsOf (defs : list DefinitionNode) :
    list OperationDefinitionNode :=
  omap (fun d => match d with OperationDefinitionD o => Some o | _ => None end) defs.
Definition inputTypesOf (defs : list DefinitionNode) :
    list InputObjectTypeDefinitionNode :=
  omap (fun d => match d with InputObjectTypeDefinitionD i => Some i | _ => None end)
       defs.
Definition enumTypesOf (defs : list DefinitionNode) :
    list EnumTypeDefinitionNode :=
  omap (fun d => match d with EnumTypeDefinitionD e => Some e | _ => None end) defs.

Definition loadFragment (fragmentDef : FragmentDefinitionNode) : LoadedFragment :=
  {| lf_node := fragmentDef;
     lf_name := frag_name fragmentDef;
     lf_onType := frag_typeCondition fragmentDef;
     lf_isExternal := false |}.

(** [concatAST(documents.map(v => v.document).concat(schemaAST))] *)
Definition allAstOf (schema : GraphQLSchema)
    (documents : list (list DefinitionNode)) : list DefinitionNode :=
  concat (documents ++ [schema_ast schema]).

Definition allFragmentsOf (schema : GraphQLSchema)
    (documents : list (list DefinitionNode))
    (rawConfig : CSharpOperationsRawPluginConfig) : list LoadedFragment :=
  List.map loadFragment (fragmentsOf (allAstOf schema documents))
  ++ raw_externalFragments rawConfig.

(** The seven text buffers [plugin] fills, in the order it fills them. *)
Record PluginBuffers : Type := mkBuffers {
  inputDefinitions : string;
  fragmentDefinitions : string;
  operationInterfaceMethods : string;
  operationDefinitions : string;
  requestDefinitions : string;
  responseDefinitions : string;
  enumDefinitions : string;
}.

Definition pluginBuffers (fuel : nat) (schema : GraphQLSchema)
    (documents : list (list DefinitionNode))
    (rawConfig : CSharpOperationsRawPluginConfig) : result PluginBuffers :=
  let allAst := allAstOf schema documents in
  let allFragments := allFragmentsOf schema documents rawConfig in
  let allOperations := operationsOf allAst in
  let allInputTypes := inputTypesOf allAst in
  let allEnumTypes := enumTypesOf allAst in
  let visitor := newVisitor schema allFragments rawConfig in
  inputDefinitions ←
    forEachAppend (InputObjectTypeDefinition visitor) allInputTypes "";
  fragmentDefinitions ←
    forEachAppend (fun fragment => getFragmentClass visitor fuel (lf_node fragment))
      allFragments "";
  operationInterfaceMethods ←
    forEachAppend (fun operation => Ok (getOperationInterfaceMethods visitor operation))
      allOperations "";
  operationDefinitions ←
    forEachAppend (getOperationConcreteMethod visitor) allOperations "";
  requestDefinitions ← forEachAppend (getRequestClass visitor) allOperations "";
  responseDefinitions ←
    forEachAppend (getResponseClass visitor fuel) allOperations "";
  enumDefinitions ←
    forEachAppend (fun enumType => Ok (getEnumDefinition enumType))
      allEnumTypes "";
  Ok {| inputDefinitions := inputDefinitions;
        fragmentDefinitions := fragmentDefinitions;
        operationInterfaceMethods := operationInterfaceMethods;
        operationDefinitions := operationDefinitions;
        requestDefinitions := requestDefinitions;
        responseDefinitions := responseDefinitions;
        enumDefinitions := enumDefinitions |}.

Definition plugin (fuel : nat) (schema : GraphQLSchema)
    (documents : list (list DefinitionNode))
    (rawConfig : CSharpOperationsRawPluginConfig) : result string :=
  let visitor :=
    newVisitor schema (allFragmentsOf schema documents rawConfig) rawConfig in
  buffers ← pluginBuffers fuel schema documents rawConfig;
  let clientInterfaceName := "I" +:+ coerce (raw_operationsClassName rawConfig) in
  let clientInterface :=
    blockString
      (withBlock (operationInterfaceMethods buffers)
         (withName (Some clientInterfaceName)
            (asKind "interface" (access "public" newBlock)))) in
  let clientClass :=
    blockString
      (withBlock (join nl [getClientDeclaration visitor;
                           operationDefinitions buffers])
         (implements [clientInterfaceName]
            (withName (raw_operationsClassName rawConfig)
               (asKind "class" (access "public" newBlock))))) in
  let blockContent :=
    join nl [clientInterface; clientClass;
             requestDefinitions buffers; responseDefinitions buffers;
             fragmentDefinitions buffers; inputDefinitions buffers;
             enumDefinitions buffers;
             getHttpRequestClass visitor; getHasErrorExtension] in
  let wrappedContent :=
    wrapWithNamespace blockContent (namespaceName (config visitor)) in
  let imports := getCSharpImports visitor in
  Ok (join nl [imports; wrappedContent]).

End Plugin.

(** ** A concrete instance of the helpers

    Simple stand-ins for the functions of the other packages, to run the
    generator on examples; the general statements below do not depend on
    them. *)

Module Sample.

Definition upperAscii (c : Ascii.ascii) : Ascii.ascii :=
  let n := Ascii.nat_of_ascii c in
  if (97 <=? n)%nat && (n <=? 122)%nat then Ascii.ascii_of_nat (n - 32) else c.

Definition pascalCase (s : string) : string :=
  match s with
  | EmptyString => EmptyString
  | String c s' => String (upperAscii c) s'
  end.

Definition keywords : list string :=
  ["class"; "event"; "namespace"; "object"; "operator"; "string"; "int"].

Definition convertSafeName (s : string) : string :=
  if existsb (String.eqb s) keywords then "@" +:+ s else s.

Definition valueTypes : list string :=
  ["bool"; "byte"; "char"; "decimal"; "double"; "float"; "int"; "long";
   "short"; "DateTime"].

Definition isValueType (t : string) : bool := existsb (String.eqb t) valueTypes.

Definition indentation (count : nat) : string := repeatString "  " count.

Fixpoint replaceNewlines (replaceWith s : string) : string :=
  match s with
  | EmptyString => EmptyString
  | String c s' =>
      if Ascii.ascii_dec c (Ascii.ascii_of_nat 10)
      then replaceWith +:+ replaceNewlines replaceWith s'
      else String c (replaceNewlines replaceWith s')
  end.

Definition indentMultiline (s : string) (count : nat) : string :=
  indentation count +:+ replaceNewlines (nl +:+ indentation count) s.

Definition blockString (b : CSharpDeclarationBlock) : string :=
  let name := default "" (_name b) in
  let head :=
    match _kind b with
    | None => ""
    | Some "namespace" => "namespace " +:+ name +:+ " "
    | Some kind =>
        let implementsStr :=
          match _implementsStr b with
          | [] => ""
          | l => " : " +:+ join ", " l
          end in
        _access b +:+ " " +:+ kind +:+ " " +:+ name +:+ implementsStr +:+ " "
    end in
  head +:+ join nl (List.filter nonEmpty ["{"; default "" (_block b); "}"]) +:+ nl.

Definition convertName (a : NameArg) : string :=
  match a with
  | NameOf s | NameNodeOf s | NodeNamed (Some s) => pascalCase s
  | NodeNamed None => ""
  end.

Definition defaultScalars : gmap string string :=
  list_to_map [("ID", "string"); ("String", "string"); ("Boolean", "bool");
               ("Int", "int"); ("Float", "double"); ("Date", "DateTime")].

(** The scalar table: the defaults, and an entry for every scalar of the
    schema: its custom mapping when the configuration has one (an empty
    name included), else its default, else [any]. *)
Definition buildScalarsFromConfig (schema : GraphQLSchema)
    (rawConfig : CSharpOperationsRawPluginConfig) : gmap string string :=
  map_imap (fun name kind =>
              match kind with
              | ScalarType =>
                  Some (match raw_scalars rawConfig !! name with
                        | Some mapped => mapped
                        | None => default "any" (defaultScalars !! name)
                        end)
              | _ => None
              end) (schema_types schema)
  ∪ defaultScalars.

Definition print (node : OperationDefinitionNode) : string :=
  operationString (op_operation node) +:+ " " +:+ default "" (op_name node).

#[export] Instance helpers : Helpers :=
  mkHelpers pascalCase convertSafeName isValueType blockString indentMultiline
    convertName buildScalarsFromConfig print
    (fun _ => []) (fun _ => "") (fun doc => doc).

(** A schema with one root type, an enum and an input type. *)
Definition queryType : ObjectTypeDefinitionNode :=
  {| obj_name := "Query";
     obj_fields :=
       [ {| fd_name := "ping"; fd_type := NamedType "String" |};
         {| fd_name := "users";
            fd_type := NonNullType (ListType (NonNullType (NamedType "User"))) |};
         {| fd_name := "me"; fd_type := NamedType "User" |} ] |}.

Definition userType : ObjectTypeDefinitionNode :=
  {| obj_name := "User";
     obj_fields :=
       [ {| fd_name := "id"; fd_type := NonNullType (NamedType "ID") |};
         {| fd_name := "age"; fd_type := NamedType "Int" |};
         {| fd_name := "stamp"; fd_type := NamedType "Stamp" |} ] |}.

Definition colorEnum : EnumTypeDefinitionNode :=
  {| enum_name := "Color"; enum_values := ["RED"; "GREEN"] |}.

Definition filterInput : InputObjectTypeDefinitionNode :=
  {| input_name := "Filter";
     input_fields := [ {| iv_name := "color"; iv_type := NamedType "Color" |} ] |}.

Definition schema : GraphQLSchema :=
  {| schema_types :=
       list_to_map [("Query", CompositeType); ("User", CompositeType);
                    ("String", ScalarType); ("ID", ScalarType);
                    ("Int", ScalarType); ("Stamp", ScalarType);
                    ("Color", EnumType); ("Filter", InputObjectType)];
     schema_ast :=
       [ObjectTypeDefinition queryType; ObjectTypeDefinition userType;
        EnumTypeDefinitionD colorEnum; InputObjectTypeDefinitionD filterInput] |}.

Definition userFields : FragmentDefinitionNode :=
  {| frag_name := "userFields"; frag_typeCondition := "User";
     frag_selections := [Field "id" None; Field "age" None] |}.

Definition pingQuery : OperationDefinitionNode :=
  {| op_operation := query; op_name := Some "ping";
     op_variableDefinitions :=
       [ {| variable_name := "msg"; variable_type := NamedType "String" |};
         {| variable_name := "filter";
            variable_type := NonNullType (NamedType "Filter") |} ];
     op_selections := [Field "ping" None] |}.

Definition usersQuery : OperationDefinitionNode :=
  {| op_operation := query; op_name := Some "users";
     op_variableDefinitions := [];
     op_selections :=
       [Field "users" (Some [Field "id" None; FragmentSpread "userFields"]);
        Field "me" (Some [FragmentSpread "userFields"])] |}.

Definition anonymousQuery : OperationDefinitionNode :=
  {| op_operation := query; op_name := None;
     op_variableDefinitions := [];
     op_selections := [Field "ping" None] |}.

Definition rawConfig (typesafe : option bool) : CSharpOperationsRawPluginConfig :=
  {| raw_namespaceName := None; raw_operationsClassName := Some "Client";
     raw_namedClient := None; raw_querySuffix := None;
     raw_mutationSuffix := None; raw_subscriptionSuffix := None;
     raw_typesafeOperation := typesafe; raw_httpClientConfig := None;
     raw_documentMode := None; raw_externalFragments := [];
     raw_scalars := ∅ |}.


Definition tickSubscription : OperationDefinitionNode :=
  {| op_operation := subscription; op_name := Some "tick";
     op_variableDefinitions := [];
     op_selections := [Field "tick" None] |}.

Definition documents : list (list DefinitionNode) :=
  [[OperationDefinitionD pingQuery; FragmentDefinition userFields]].

Definition visitor : CSharpOperationsVisitor :=
  newVisitor schema (allFragmentsOf schema documents (rawConfig None))
    (rawConfig None).

(** The descriptors the fields [users] and [me] of the root type resolve
    to. *)
Definition usersType : CSharpFieldType :=
  {| baseType := {| type := "User"; required := Some true;
                    valueType := Some false |};
     listType := Some (mkListTypeField true None) |}.

Definition meType : CSharpFieldType :=
  {| baseType := {| type := "User"; required := Some false;
                    valueType := Some false |};
     listType := None |}.

(** The descriptors of the variables of [pingQuery], and the texts of
    the two sub-selections of [users] in [usersQuery]. *)
Definition msgType : CSharpFieldType :=
  {| baseType := {| type := "string"; required := Some false;
                    valueType := Some false |};
     listType := None |}.

Definition filterType : CSharpFieldType :=
  {| baseType := {| type := "Filter"; required := Some true;
                    valueType := Some false |};
     listType := None |}.

Definition usersFields : list string :=
  ["  [JsonProperty(" +:+ dq +:+ "id" +:+ dq +:+ ")]" +:+ nl +:+
   "  public string Id { get; set; }" +:+ nl +:+ "  ";
   "  [JsonProperty(" +:+ dq +:+ "id" +:+ dq +:+ ")]" +:+ nl +:+
   "  public string Id { get; set; }" +:+ nl +:+ "  " +:+ nl +:+
   "  [JsonProperty(" +:+ dq +:+ "age" +:+ dq +:+ ")]" +:+ nl +:+
   "  public int? Age { get; set; }" +:+ nl +:+ "  "].

Definition colorType : CSharpFieldType :=
  {| baseType := {| type := "Color"; required := Some false;
                    valueType := Some true |};
     listType := None |}.


Definition visitorTypesafe : CSharpOperationsVisitor :=
  newVisitor schema [] (rawConfig (Some true)).

End Sample.

(** ** The request class, part by part

    What the request class is said to consist of, written per variable;
    [getRequestClass] is compared with these below. *)

Section RequestClassParts.
Context `{Helpers}.

Definition inputTypeNameOf (ty : CSharpFieldType) : string :=
  wrapFieldType ty (listType ty) "List".

(** The two lines of a serializable property, written out: the attribute
    with the wire name, then the declaration with the type and the
    in-class name. *)
Definition propertyLines (wireName typeName propertyName : string) : string :=
  "[JsonProperty(" +:+ dq +:+ wireName +:+ dq +:+ ")]" +:+ nl +:+
  "public " +:+ typeName +:+ " " +:+ propertyName +:+ " { get; set; }" +:+ nl.

(** A declaration block of a public class with the given name and body. *)
Definition classDeclaration (className body : string) : CSharpDeclarationBlock :=
  {| _access := "public"; _kind := Some "class"; _name := Some className;
     _implementsStr := []; _block := Some body |}.

(** The property of a variable: wire name the variable name, in-class
    name its pascal-cased, escaped form. *)
Definition requestProperty (v : VariableDefinitionNode) (ty : CSharpFieldType) :
    string :=
  indentMultiline
    (propertyLines (variable_name v) (inputTypeNameOf ty)
       (convertSafeName (pascalCase (variable_name v)))) 1.

(** The constructor parameter of a variable. *)
Definition constructorParameter (v : VariableDefinitionNode)
    (ty : CSharpFieldType) : string :=
  inputTypeNameOf ty +:+ " " +:+ convertSafeName (variable_name v).

(** The constructor line that assigns the parameter of a variable to its
    property. *)
Definition constructorAssignment (v : VariableDefinitionNode) : string :=
  nl +:+ "  " +:+ convertSafeName (pascalCase (variable_name v)) +:+ " = " +:+
  convertSafeName (variable_name v) +:+ ";".

Definition requestClassOf (className : string)
    (vars : list VariableDefinitionNode) (tys : list CSharpFieldType) : string :=
  blockString
    (classDeclaration className
       (join nl
          [nl +:+ join nl (zip_with requestProperty vars tys);
           "public " +:+ className +:+ "(" +:+
           join ", " (zip_with constructorParameter vars tys) +:+ ") {" +:+
           String.concat "" (List.map constructorAssignment vars) +:+
           nl +:+ "}"])).

End RequestClassParts.

(** ** The selection compiler, part by part *)

Section SelectionParts.
Context `{Helpers}.
Variable this : CSharpOperationsVisitor.

(** The callback both [map] calls of the selection compiler apply to a
    sub-selection: an inline fragment throws, a field and a spread are
    compiled against the given parent type. *)
Definition compileSelection (fuel : nat)
    (parentSchema : option ObjectTypeDefinitionNode) (s : SelectionNode) :
    result string :=
  match s with
  | InlineFragment _ _ => Throw (unsupportedKind s)
  | FragmentSpread n => _getFragmentSpreadDefinition this fuel n parentSchema
  | Field n ss => _getFieldDefinition this fuel n ss parentSchema
  end.

(** The callback of the [map] calls of [getResponseClass] and
    [getFragmentClass]: only fields are compiled. *)
Definition compileRootSelection (fuel : nat)
    (parentSchema : option ObjectTypeDefinitionNode) (opr : SelectionNode) :
    result string :=
  match opr with
  | Field n ss => _getFieldDefinition this fuel n ss parentSchema
  | _ => Throw (unknownKind opr)
  end.

(** The name of the synthetic class of a composite field: the pascal-cased
    field name, without its final [s] when the field is list-valued,
    followed by [Result], escaped. *)
Definition resultClassName (fieldName : string) (responseType : CSharpFieldType) :
    string :=
  let baseTypeName := pascalCase fieldName in
  convertSafeName
    ((if bool_decide (is_Some (listType responseType)) && endsWith_s baseTypeName
      then sliceDropLast baseTypeName else baseTypeName) +:+ "Result").

(** A class name under the list wrappers of a field. *)
Definition listOf (className : string) (l : option ListTypeField) : string :=
  match l with
  | Some l => wrapList className l "List"
  | None => className
  end.

(** The object type the root selections of an operation are compiled
    against. *)
Definition operationSchemaOf (node : OperationDefinitionNode) :
    option ObjectTypeDefinitionNode :=
  findObjectType this
    (fun n => String.eqb (toLowerCase n) (operationString (op_operation node))).

End SelectionParts.

(** A visitor with the typesafe flag of its configuration set to [b], all
    else unchanged. *)
Definition withTypesafeOperation (b : bool) (v : CSharpOperationsVisitor) :
    CSharpOperationsVisitor :=
  {| _schema := _schema v; _schemaAST := _schemaAST v;
     _fragments := _fragments v;
     config :=
       {| namespaceName := namespaceName (config v);
          operationsClassName := operationsClassName (config v);
          namedClient := namedClient (config v);
          querySuffix := querySuffix (config v);
          mutationSuffix := mutationSuffix (config v);
          subscriptionSuffix := subscriptionSuffix (config v);
          typesafeOperation := b;
          httpClientConfig := httpClientConfig (config v);
          documentMode := documentMode (config v) |};
     scalars := scalars v;
     _collectedOperations := _collectedOperations v |}.

(** ** Further parts, for the properties of the rest of the generator *)

(** How a C# verbatim string literal is read, from just after its opening
    quote: two quotes stand for one quote character, a single quote closes
    the literal. The result is the text of the literal and what follows
    the closing quote; none when the literal is never closed. *)
Fixpoint readVerbatim (s : string) : option (string * string) :=
  match s with
  | EmptyString => None
  | String c s' =>
      if Ascii.ascii_dec c (Ascii.ascii_of_nat 34) then
        match s' with
        | String c' s'' =>
            if Ascii.ascii_dec c' (Ascii.ascii_of_nat 34)
            then prod_map (String c) id <$> readVerbatim s''
            else Some (EmptyString, s')
        | EmptyString => Some (EmptyString, EmptyString)
        end
      else prod_map (String c) id <$> readVerbatim s'
  end.

(** Whether a text begins with a double quote. *)
Definition startsWithQuote (s : string) : bool :=
  match s with
  | String c _ => if Ascii.ascii_dec c (Ascii.ascii_of_nat 34) then true else false
  | EmptyString => false
  end.

(** The texts of a buffer: each followed by a line break. *)
Definition linesOf (texts : list string) : string :=
  String.concat "" (List.map (fun t => t +:+ nl) texts).

Section FurtherParts.
Context `{Helpers}.

(** The property of a field of an input type. *)
Definition inputProperty (f : InputValueDefinitionNode) (ty : CSharpFieldType) :
    string :=
  indentMultiline
    (propertyLines (iv_name f) (inputTypeNameOf ty)
       (convertSafeName (pascalCase (iv_name f)))) 1.

(** The property of a leaf field of resolved type [ty]. *)
Definition leafProperty (fieldName : string) (ty : CSharpFieldType) : string :=
  indentMultiline
    (propertyLines fieldName (inputTypeNameOf ty)
       (convertSafeName (pascalCase fieldName))) 1.

End FurtherParts.

(** A second sample: a schema with an interface type, a fragment that
    spreads itself, and an external fragment that shares its name with a
    fragment of the documents. *)
Module Sample2.

Definition queryType : ObjectTypeDefinitionNode :=
  {| obj_name := "QUERY";
     obj_fields :=
       [ {| fd_name := "node"; fd_type := NamedType "Node" |};
         {| fd_name := "getUser"; fd_type := NamedType "User" |};
         {| fd_name := "user"; fd_type := NamedType "User" |};
         {| fd_name := "users"; fd_type := ListType (NamedType "User") |} ] |}.

Definition userType : ObjectTypeDefinitionNode :=
  {| obj_name := "User";
     obj_fields :=
       [ {| fd_name := "id"; fd_type := NonNullType (NamedType "ID") |};
         {| fd_name := "friend"; fd_type := NamedType "User" |} ] |}.

Definition pointInput : InputObjectTypeDefinitionNode :=
  {| input_name := "Point";
     input_fields :=
       [ {| iv_name := "x"; iv_type := NonNullType (NamedType "Int") |};
         {| iv_name := "tag"; iv_type := NamedType "Missing" |} ] |}.

Definition schema : GraphQLSchema :=
  {| schema_types :=
       list_to_map [("QUERY", CompositeType); ("User", CompositeType);
                    ("Node", CompositeType); ("ID", ScalarType);
                    ("Int", ScalarType); ("Point", InputObjectType)];
     schema_ast :=
       [InputObjectTypeDefinitionD pointInput;
        ObjectTypeDefinition queryType; ObjectTypeDefinition userType] |}.

Definition chain : FragmentDefinitionNode :=
  {| frag_name := "chain"; frag_typeCondition := "User";
     frag_selections :=
       [Field "id" None; Field "friend" (Some [Field "id" None;
                                               FragmentSpread "chain"]);
        FragmentSpread "chain"] |}.

Definition onNode : FragmentDefinitionNode :=
  {| frag_name := "onNode"; frag_typeCondition := "Node";
     frag_selections := [Field "id" None] |}.

Definition externalChain : LoadedFragment :=
  {| lf_node := {| frag_name := "chain"; frag_typeCondition := "User";
                   frag_selections := [Field "id" None] |};
     lf_name := "chain"; lf_onType := "User"; lf_isExternal := true |}.

Definition getUserQuery : OperationDefinitionNode :=
  {| op_operation := query; op_name := Some "getUser";
     op_variableDefinitions :=
       [ {| variable_name := "ids";
            variable_type := NonNullType (ListType (NamedType "ID")) |};
         {| variable_name := "where"; variable_type := NamedType "Missing" |} ];
     op_selections := [Field "getUser" (Some [Field "id" None])] |}.

Definition leafQuery : OperationDefinitionNode :=
  {| op_operation := query; op_name := Some "Get";
     op_variableDefinitions := [];
     op_selections := [Field "user" None; Field "users" None] |}.

Definition anonymousQuery : OperationDefinitionNode :=
  {| op_operation := query; op_name := None;
     op_variableDefinitions := [];
     op_selections := [Field "user" None] |}.

Definition rawConfig (typesafe : bool) : CSharpOperationsRawPluginConfig :=
  {| raw_namespaceName := None; raw_operationsClassName := None;
     raw_namedClient := None; raw_querySuffix := None;
     raw_mutationSuffix := None; raw_subscriptionSuffix := None;
     raw_typesafeOperation := Some typesafe;
     raw_httpClientConfig :=
       Some {| prodEndpoint := None; devEndpoint := Some "https://dev.example";
               useDevIf := Some "Debug.isDebugBuild" |};
     raw_documentMode := None; raw_externalFragments := [externalChain];
     raw_scalars := ∅ |}.

Definition documents : list (list DefinitionNode) :=
  [[OperationDefinitionD leafQuery; FragmentDefinition chain];
   [OperationDefinitionD anonymousQuery]].

(** The descriptors the fields [node], [user] and [users] of the root
    type resolve to. *)
Definition nodeType : CSharpFieldType :=
  {| baseType := {| type := "Node"; required := Some false;
                    valueType := Some false |};
     listType := None |}.

Definition userLeafType : CSharpFieldType :=
  {| baseType := {| type := "User"; required := Some false;
                    valueType := Some false |};
     listType := None |}.

Definition usersLeafType : CSharpFieldType :=
  {| baseType := {| type := "User"; required := Some false;
                    valueType := Some false |};
     listType := Some (mkListTypeField false None) |}.

Definition visitor : CSharpOperationsVisitor :=
  @newVisitor Sample.helpers schema
    (allFragmentsOf schema documents (rawConfig true)) (rawConfig true).

End Sample2.

(** * Properties *)

(** ** Outcomes and lists *)

Lemma bind_Ok {A B} (m : result A) (f : A -> result B) (b : B) :
  m ≫= f = Ok b -> exists a, m = Ok a /\ f a = Ok b.
Proof. destruct m as [a| |]; simpl; intros E; try discriminate. eauto. Qed.

Lemma isOk_bind {A B} (m : result A) (f : A -> result B) :
  isOk m = false -> isOk (m ≫= f) = false.
Proof. destruct m; simpl; congruence. Qed.

Lemma mapM_app_Throw {A B} (f : A -> result B) pre x post ys e :
  mapM f pre = Ok ys -> f x = Throw e -> mapM f (pre ++ x :: post) = Throw e.
Proof.
  revert ys. induction pre as [|p pre IH]; intros ys Hpre Hx; simpl in *.
  - rewrite Hx. reflexivity.
  - destruct (f p) as [y| |]; simpl in *; try discriminate.
    destruct (mapM f pre) as [ys'| |] eqn:E; simpl in *; try discriminate.
    rewrite (IH ys' eq_refl Hx). reflexivity.
Qed.

Lemma mapM_not_Ok {A B} (f : A -> result B) (l : list A) :
  Exists (fun x => isOk (f x) = false) l -> isOk (mapM f l) = false.
Proof.
  induction 1 as [x l Hx|x l _ IH]; simpl.
  - apply isOk_bind. exact Hx.
  - destruct (f x); simpl; try reflexivity.
    apply isOk_bind. exact IH.
Qed.

Lemma find_none_iff {A} (p : A -> bool) (l : list A) :
  List.find p l = None <-> forall x, In x l -> p x = false.
Proof.
  split; [apply List.find_none|].
  induction l as [|a l IH]; simpl; intros Hall; [reflexivity|].
  rewrite (Hall a (or_introl eq_refl)). apply IH. intros x Hx. apply Hall. now right.
Qed.

(** ** Type Resolver *)

Section TypeResolver.
Context `{Helpers}.
Variable this : CSharpOperationsVisitor.

(** Whatever the schema kind of a known base type, the resolver returns a
    descriptor with the list wrappers and the element requiredness of the
    reference. *)
Lemma resolveFieldType_known (t : TypeNode) (k : GraphQLNamedType) :
  getType (_schema this) (getBaseTypeNode t) = Some k ->
  exists r, resolveFieldType this t false = Ok r
    /\ listType r = getListTypeField t
    /\ required (baseType r) = Some (isNonNull (getListInnerTypeNode t)).
Proof.
  intros Hk. unfold resolveFieldType. rewrite Hk.
  destruct k; [destruct (truthy _)|..]; simpl; eauto.
Qed.

Lemma resolveFieldType_default (t : TypeNode) (r : CSharpFieldType) :
  resolveFieldType this t false = Ok r ->
  resolveFieldType this t true = Ok (clearOuterRequired r).
Proof.
  unfold resolveFieldType. intros E.
  apply bind_Ok in E as (r0 & -> & E). simpl in *. congruence.
Qed.

Lemma clearOuterRequired_idempotent (r : CSharpFieldType) :
  clearOuterRequired (clearOuterRequired r) = clearOuterRequired r.
Proof.
  destruct r as [b [[q inner]|]]; reflexivity.
Qed.

End TypeResolver.

(** C3, as stated, fails: for the reference [[String!]!] resolved with the
    default-value flag the list wrapper becomes optional, but the base
    element stays required. *)
Lemma default_keeps_element_requiredness :
  exists r,
    @resolveFieldType Sample.helpers Sample.visitor
      (NonNullType (ListType (NonNullType (NamedType "String")))) true = Ok r
    /\ listType r = Some (mkListTypeField false None)
    /\ required (baseType r) = Some true
    /\ required (baseType r) <> Some false.
Proof.
  eexists. split; [reflexivity|]. split; [reflexivity|].
  split; [reflexivity|discriminate].
Qed.

(** C3 (amended): resolved with the default-value flag, a reference to a
    known type gives a descriptor whose outer level is optional: the
    outermost list wrapper when there is one, the base element otherwise.
    Under a list wrapper the base element, and any inner wrapper, keep the
    requiredness the schema declares. Forcing the outer level optional a
    second time changes nothing. *)
Theorem resolveFieldType_default_outer_optional
    `{Helpers} (this : CSharpOperationsVisitor) (t : TypeNode) :
  getType (_schema this) (getBaseTypeNode t) <> None ->
  exists r,
    resolveFieldType this t true = Ok r
    /\ isOuterTypeRequired r = false
    /\ (getListTypeField t = None ->
        listType r = None /\ required (baseType r) = Some false)
    /\ (forall q inner, getListTypeField t = Some (mkListTypeField q inner) ->
        listType r = Some (mkListTypeField false inner)
        /\ required (baseType r) = Some (isNonNull (getListInnerTypeNode t)))
    /\ clearOuterRequired r = r.
Proof.
  intros Hk. destruct (getType _ _) as [k|] eqn:E; [|congruence].
  destruct (resolveFieldType_known this t k E) as (r0 & Hr0 & Hl & Hb).
  exists (clearOuterRequired r0). split.
  { apply resolveFieldType_default, Hr0. }
  split; [|split; [|split]].
  - destruct r0 as [b [[q inner]|]]; reflexivity.
  - intros Hn. rewrite Hn in Hl. destruct r0 as [b l]; simpl in *; subst l.
    split; reflexivity.
  - intros q inner Hs. rewrite Hs in Hl.
    destruct r0 as [b l]; simpl in *; subst l. simpl. split; [reflexivity|exact Hb].
  - apply clearOuterRequired_idempotent.
Qed.

Lemma resolveFieldType_default_outer_optional_witness :
  exists r,
    @resolveFieldType Sample.helpers Sample.visitor
      (NonNullType (ListType (NonNullType (NamedType "String")))) true = Ok r
    /\ isOuterTypeRequired r = false
    /\ required (baseType r) = Some true.
Proof.
  destruct (@resolveFieldType_default_outer_optional Sample.helpers Sample.visitor
              (NonNullType (ListType (NonNullType (NamedType "String")))))
    as (r & Hr & Ho & _ & Hl & _).
  - vm_compute. discriminate.
  - exists r. split; [exact Hr|]. split; [exact Ho|].
    destruct (Hl true None eq_refl) as [_ Hb]. exact Hb.
Defined.




(** ** Request class *)

Lemma string_app_assoc (a b c : string) : (a +:+ b) +:+ c = a +:+ (b +:+ c).
Proof.
  induction a as [|x a IH]; [reflexivity|].
  change (String x ((a +:+ b) +:+ c) = String x (a +:+ (b +:+ c))).
  now rewrite IH.
Qed.

Lemma string_app_empty_r (a : string) : a +:+ "" = a.
Proof.
  induction a as [|x a IH]; [reflexivity|].
  change (String x (a +:+ "") = String x a). now rewrite IH.
Qed.

(** The property text the code emits is the two lines written out. *)
Lemma propertyText_lines `{Helpers} (wireName typeName propertyName : string) :
  propertyText wireName typeName propertyName
  = indentMultiline (propertyLines wireName typeName propertyName) 1.
Proof.
  unfold propertyText, propertyLines, jsonProperty, join.
  cbn [String.concat]. now rewrite !string_app_assoc.
Qed.

Lemma mapM_cons {A B} (f : A -> result B) x l :
  mapM f (x :: l) = y ← f x; k ← mapM f l; Ok (y :: k).
Proof. reflexivity. Qed.

Lemma mapM_cons_Ok {A B} (f : A -> result B) x l ys :
  mapM f (x :: l) = Ok ys ->
  exists y ys', f x = Ok y /\ mapM f l = Ok ys' /\ ys = y :: ys'.
Proof.
  simpl. intros E. apply bind_Ok in E as (y & Hy & E).
  apply bind_Ok in E as (ys' & Hys & E). injection E as <-. eauto.
Qed.

Section RequestClass.
Context `{Helpers}.
Variable this : CSharpOperationsVisitor.

Let resolve (v : VariableDefinitionNode) : result CSharpFieldType :=
  resolveFieldType this (variable_type v) false.

Lemma mapM_length {A B} (f : A -> result B) (l : list A) (ys : list B) :
  mapM f l = Ok ys -> length l = length ys.
Proof.
  revert ys. induction l as [|x l IH]; intros ys E.
  - injection E as <-. reflexivity.
  - apply mapM_cons_Ok in E as (y & ys' & _ & E & ->).
    simpl. f_equal. now apply IH.
Qed.

Lemma request_fields (vars : list VariableDefinitionNode) tys :
  mapM resolve vars = Ok tys ->
  mapM (requestField this) vars = Ok (zip_with requestProperty vars tys).
Proof.
  revert tys. induction vars as [|v vars IH]; intros tys E.
  - injection E as <-. reflexivity.
  - apply mapM_cons_Ok in E as (ty & tys' & Hty & Htys & ->).
    unfold resolve in Hty. rewrite mapM_cons, (IH _ Htys).
    unfold requestField. rewrite Hty. cbn [mbind result_bind].
    rewrite propertyText_lines. reflexivity.
Qed.

(** The first loop, started at index [length pre] on the variables that are
    left, appends their parameters, comma-separated. *)
Lemma constructorParams_loop (pre rest : list VariableDefinitionNode)
    tys (acc : string) :
  mapM resolve rest = Ok tys ->
  forLoop (length rest) (length pre)
    (constructorParamsStep this (pre ++ rest)) acc
  = Ok (acc +:+ join ", " (zip_with constructorParameter rest tys)).
Proof.
  revert pre tys acc. induction rest as [|v rest IH]; intros pre tys acc E.
  - injection E as <-. simpl. now rewrite string_app_empty_r.
  - apply mapM_cons_Ok in E as (ty & tys' & Hty & Htys & ->).
    unfold resolve in Hty. cbn [forLoop length].
    assert (constructorParamsStep this (pre ++ v :: rest) (length pre) acc
            = Ok (if (length pre <? length (pre ++ v :: rest) - 1)%nat
                  then (acc +:+ constructorParameter v ty) +:+ ", "
                  else acc +:+ constructorParameter v ty)) as ->.
    { unfold constructorParamsStep.
      rewrite list_lookup_middle by reflexivity. rewrite Hty. reflexivity. }
    cbn [mbind result_bind].
    specialize (IH (pre ++ [v])%list tys').
    rewrite length_app in IH. cbn [length] in IH.
    replace (length pre + 1)%nat with (S (length pre)) in IH by lia.
    rewrite <- app_assoc in IH. cbn [app] in IH.
    rewrite (IH _ Htys).
    f_equal. rewrite length_app.
    destruct rest as [|v' rest].
    + injection Htys as <-. cbn [length].
      replace (length pre <? length pre + 1 - 1)%nat with false
        by (symmetry; apply Nat.ltb_ge; lia).
      cbn [zip_with join String.concat]. now rewrite string_app_empty_r.
    + apply mapM_cons_Ok in Htys as (ty' & tys'' & _ & _ & ->).
      cbn [length].
      replace (length pre <? length pre + S (S (length rest)) - 1)%nat with true
        by (symmetry; apply Nat.ltb_lt; lia).
      cbn [zip_with join String.concat].
      now rewrite !string_app_assoc.
Qed.

Lemma constructorParams_all (vars : list VariableDefinitionNode) tys :
  mapM resolve vars = Ok tys ->
  forLoop (length vars) 0 (constructorParamsStep this vars) ""
  = Ok (join ", " (zip_with constructorParameter vars tys)).
Proof. intros E. exact (constructorParams_loop [] vars tys "" E). Qed.

(** The second loop appends one assignment per variable. *)
Lemma constructorBody_loop (pre rest : list VariableDefinitionNode)
    (acc : string) :
  forLoop (length rest) (length pre) (constructorBodyStep (pre ++ rest)) acc
  = Ok (acc +:+ String.concat "" (List.map constructorAssignment rest)).
Proof.
  revert pre acc. induction rest as [|v rest IH]; intros pre acc.
  - simpl. now rewrite string_app_empty_r.
  - cbn [forLoop length].
    assert (constructorBodyStep (pre ++ v :: rest) (length pre) acc
            = Ok (acc +:+ constructorAssignment v)) as ->.
    { unfold constructorBodyStep.
      rewrite list_lookup_middle by reflexivity. reflexivity. }
    cbn [mbind result_bind].
    specialize (IH (pre ++ [v])%list).
    rewrite length_app in IH. cbn [length] in IH.
    replace (length pre + 1)%nat with (S (length pre)) in IH by lia.
    rewrite <- app_assoc in IH. cbn [app] in IH.
    rewrite IH. f_equal.
    rewrite string_app_assoc. f_equal.
    destruct rest as [|v' rest]; cbn [List.map String.concat].
    + now rewrite string_app_empty_r.
    + reflexivity.
Qed.

Lemma constructorBody_all (vars : list VariableDefinitionNode) (acc : string) :
  forLoop (length vars) 0 (constructorBodyStep vars) acc
  = Ok (acc +:+ String.concat "" (List.map constructorAssignment vars)).
Proof. exact (constructorBody_loop [] vars acc). Qed.

Lemma getRequestClass_parts (node : OperationDefinitionNode) tys :
  op_variableDefinitions node <> [] ->
  mapM (fun v => resolveFieldType this (variable_type v) false)
    (op_variableDefinitions node) = Ok tys ->
  getRequestClass this node
  = Ok (requestClassOf (_getVariablesClassName node)
          (op_variableDefinitions node) tys).
Proof.
  intros Hne Htys. unfold getRequestClass.
  destruct (op_variableDefinitions node) as [|v vars] eqn:E; [congruence|].
  change (length (v :: vars) =? 0)%nat with false. cbv iota.
  rewrite (request_fields _ _ Htys). cbn [mbind result_bind].
  rewrite (constructorParams_all _ _ Htys). cbn [mbind result_bind].
  rewrite constructorBody_all. cbn [mbind result_bind].
  unfold requestClassOf. do 4 f_equal.
  now rewrite !string_app_assoc.
Qed.

(** C5: an operation without variables gets no request class, the empty
    text. With one or more variables, all of types the resolver knows, the
    request class is a public class under the variables class name that
    holds one property per variable, in declaration order: the attribute
    with the variable name, then the declaration of the wrapped variable
    type under the pascal-cased, escaped variable name; and after the
    properties one constructor, named as the class, with one parameter per
    variable in declaration order, whose body assigns each parameter to
    the pascal-cased property of its variable, in the same order. *)
Theorem getRequestClass_shape (node : OperationDefinitionNode) :
  (op_variableDefinitions node = [] -> getRequestClass this node = Ok "")
  /\ (forall tys,
        op_variableDefinitions node <> [] ->
        mapM (fun v => resolveFieldType this (variable_type v) false)
          (op_variableDefinitions node) = Ok tys ->
        getRequestClass this node
        = Ok (blockString
                {| _access := "public"; _kind := Some "class";
                   _name := Some (_getVariablesClassName node);
                   _implementsStr := [];
                   _block :=
                     Some (join nl
                       [nl +:+ join nl
                          (zip_with
                             (fun v ty =>
                                indentMultiline
                                  ("[JsonProperty(" +:+ dq +:+ variable_name v
                                   +:+ dq +:+ ")]" +:+ nl +:+
                                   "public " +:+
                                   wrapFieldType ty (listType ty) "List" +:+ " "
                                   +:+ convertSafeName
                                         (pascalCase (variable_name v))
                                   +:+ " { get; set; }" +:+ nl) 1)
                             (op_variableDefinitions node) tys);
                        "public " +:+ _getVariablesClassName node +:+ "(" +:+
                        join ", "
                          (zip_with
                             (fun v ty =>
                                wrapFieldType ty (listType ty) "List" +:+ " "
                                +:+ convertSafeName (variable_name v))
                             (op_variableDefinitions node) tys) +:+ ") {" +:+
                        String.concat ""
                          (List.map
                             (fun v =>
                                nl +:+ "  " +:+
                                convertSafeName (pascalCase (variable_name v))
                                +:+ " = " +:+ convertSafeName (variable_name v)
                                +:+ ";")
                             (op_variableDefinitions node)) +:+
                        nl +:+ "}"]) |})
        /\ length tys = length (op_variableDefinitions node)).
Proof.
  split.
  - intros E. unfold getRequestClass. rewrite E. reflexivity.
  - intros tys Hne Htys. split.
    + rewrite (getRequestClass_parts node tys Hne Htys). reflexivity.
    + symmetry. exact (mapM_length _ _ _ Htys).
Qed.

End RequestClass.

(** ** Selection Compiler *)

Section SelectionCompiler.
Context `{Helpers}.
Variable this : CSharpOperationsVisitor.

Lemma soleFragmentSpread_None (selections : list SelectionNode) :
  soleFragmentSpread selections = None <->
  forall n, selections <> [FragmentSpread n].
Proof.
  split.
  - intros E n ->. discriminate.
  - intros Hn. destruct selections as [|[| n |] [|]]; try reflexivity.
    now destruct (Hn n).
Qed.

Lemma soleFragmentSpread_inline pre tc ss post :
  soleFragmentSpread (pre ++ InlineFragment tc ss :: post)%list = None.
Proof.
  apply soleFragmentSpread_None. intros n E.
  destruct pre as [|p [|]]; simpl in E; discriminate.
Qed.

(** One step of [_getFieldDefinition] on a field the parent type has and
    whose type resolves. *)
Lemma _getFieldDefinition_found fuel name selectionSet parent fieldSchema rt :
  List.find (fun f => String.eqb (fd_name f) name) (obj_fields parent)
  = Some fieldSchema ->
  resolveFieldType this (fd_type fieldSchema) false = Ok rt ->
  _getFieldDefinition this (S fuel) name selectionSet (Some parent)
  = match selectionSet with
    | None =>
        Ok (propertyText name (wrapFieldType rt (listType rt) "List")
              (convertSafeName (pascalCase name)))
    | Some selections =>
        let innerClassSchema :=
          findObjectType this (String.eqb (type (baseType rt))) in
        match soleFragmentSpread selections with
        | Some fragmentNode =>
            let className := _getFragmentClassName fragmentNode in
            Ok (propertyText name
                  (match listType rt with
                   | Some _ => "List<" +:+ className +:+ ">"
                   | None => className
                   end)
                  (match listType rt with
                   | Some _ => className +:+ "s"
                   | None => className
                   end))
        | None =>
            selectionFields ←
              mapM (compileSelection this fuel innerClassSchema) selections;
            Ok (indentMultiline
                  (join nl [blockString
                              (publicClass (resultClassName name rt)
                                 (join nl selectionFields));
                            jsonProperty name;
                            "public " +:+
                            listOf (resultClassName name rt) (listType rt) +:+
                            " Result { get; set; }"] +:+ nl) 1)
        end
    end.
Proof.
  intros Hf Hr. cbn [_getFieldDefinition]. rewrite Hf, Hr.
  cbn [mbind result_bind].
  destruct selectionSet as [selections|]; [|reflexivity].
  destruct (soleFragmentSpread selections) as [n|].
  - destruct (listType rt); reflexivity.
  - unfold compileSelection, resultClassName, listOf, publicClass.
    destruct (mapM _ selections) as [fields| |]; cbn [mbind result_bind];
      try reflexivity.
    unfold wrapFieldType, innerTypeName. cbn [listType baseType type valueType truthyB default andb].
    rewrite string_app_empty_r. reflexivity.
Qed.

(** C2: a composite field whose selection set is exactly one fragment
    spread gets no class of its own: what is emitted is the attribute with
    the field name and one declaration, of the class the spread names, as
    [List<...>] and under the class name followed by [s] when the field is
    list-valued. A composite field of any other shape, whose sub-selections
    compile, gets a nested class named by [resultClassName], followed by
    the attribute and a declaration named [Result], of that class under
    the list wrappers of the field. *)
Theorem _getFieldDefinition_composite fuel name selections parent fieldSchema rt :
  List.find (fun f => String.eqb (fd_name f) name) (obj_fields parent)
  = Some fieldSchema ->
  resolveFieldType this (fd_type fieldSchema) false = Ok rt ->
  (forall fragmentName, selections = [FragmentSpread fragmentName] ->
     let className := convertName (NodeNamed (Some fragmentName)) in
     _getFieldDefinition this (S fuel) name (Some selections) (Some parent)
     = Ok (indentMultiline
             ("[JsonProperty(" +:+ dq +:+ name +:+ dq +:+ ")]" +:+ nl +:+
              "public " +:+
              (if bool_decide (is_Some (listType rt))
               then "List<" +:+ className +:+ ">" else className) +:+
              " " +:+
              (if bool_decide (is_Some (listType rt))
               then className +:+ "s" else className) +:+
              " { get; set; }" +:+ nl) 1))
  /\ (forall selectionFields,
        (forall fragmentName, selections <> [FragmentSpread fragmentName]) ->
        mapM (compileSelection this fuel
                (findObjectType this (String.eqb (type (baseType rt)))))
          selections = Ok selectionFields ->
        _getFieldDefinition this (S fuel) name (Some selections) (Some parent)
        = Ok (indentMultiline
                (blockString
                   {| _access := "public"; _kind := Some "class";
                      _name := Some (resultClassName name rt);
                      _implementsStr := [];
                      _block := Some (join nl selectionFields) |} +:+ nl +:+
                 "[JsonProperty(" +:+ dq +:+ name +:+ dq +:+ ")]" +:+ nl +:+
                 "public " +:+
                 listOf (resultClassName name rt) (listType rt) +:+
                 " Result { get; set; }" +:+ nl) 1)).
Proof.
  intros Hf Hr.
  rewrite (_getFieldDefinition_found fuel name (Some selections) _ _ _ Hf Hr).
  split.
  - intros n ->. cbn [soleFragmentSpread]. cbv zeta.
    rewrite propertyText_lines. unfold _getFragmentClassName, propertyLines.
    destruct (listType rt); reflexivity.
  - intros fields Hshape Hsub.
    apply soleFragmentSpread_None in Hshape. rewrite Hshape.
    cbv zeta. rewrite Hsub. cbn [mbind result_bind].
    unfold jsonProperty, join. cbn [String.concat].
    now rewrite !string_app_assoc.
Qed.

(** An inline fragment among the selections a [map] call compiles: the
    call never returns text, and throws the unsupported-kind error when
    the selections before the inline fragment compile. *)
Lemma compileSelection_inline fuel parentSchema pre tc ss post :
  isOk (mapM (compileSelection this fuel parentSchema)
          (pre ++ InlineFragment tc ss :: post)%list) = false
  /\ (forall texts,
        mapM (compileSelection this fuel parentSchema) pre = Ok texts ->
        mapM (compileSelection this fuel parentSchema)
          (pre ++ InlineFragment tc ss :: post)%list
        = Throw (Error "Unsupported kind; [object Object] InlineFragment")).
Proof.
  split.
  - apply mapM_not_Ok. apply Exists_app. right. now constructor.
  - intros texts Hpre. now apply (mapM_app_Throw _ _ _ _ texts).
Qed.

Lemma compileRootSelection_inline fuel parentSchema pre tc ss post :
  isOk (mapM (compileRootSelection this fuel parentSchema)
          (pre ++ InlineFragment tc ss :: post)%list) = false
  /\ (forall texts,
        mapM (compileRootSelection this fuel parentSchema) pre = Ok texts ->
        mapM (compileRootSelection this fuel parentSchema)
          (pre ++ InlineFragment tc ss :: post)%list
        = Throw (Error "Unknown kind; InlineFragment in OperationDefinitionNode")).
Proof.
  split.
  - apply mapM_not_Ok. apply Exists_app. right. now constructor.
  - intros texts Hpre. now apply (mapM_app_Throw _ _ _ _ texts).
Qed.

Lemma _getFieldDefinition_inline_not_Ok fuel name pre tc ss post parentSchema :
  isOk (_getFieldDefinition this fuel name
          (Some (pre ++ InlineFragment tc ss :: post)%list) parentSchema) = false.
Proof.
  destruct fuel as [|fuel]; [reflexivity|].
  destruct parentSchema as [parent|]; [|reflexivity].
  destruct (List.find (fun f => String.eqb (fd_name f) name) (obj_fields parent))
    as [fieldSchema|] eqn:Hf; [|cbn [_getFieldDefinition]; now rewrite Hf].
  destruct (resolveFieldType this (fd_type fieldSchema) false) as [rt| |] eqn:Hr;
    [|cbn [_getFieldDefinition]; now rewrite Hf, Hr..].
  rewrite (_getFieldDefinition_found fuel name _ _ _ _ Hf Hr).
  rewrite soleFragmentSpread_inline. cbv zeta.
  apply isOk_bind, compileSelection_inline.
Qed.

Lemma _getFragmentSpreadDefinition_S fuel name parentSchema :
  _getFragmentSpreadDefinition this (S fuel) name parentSchema
  = match List.find (fun f => String.eqb (lf_name f) name) (_fragments this) with
    | None => Throw (Error ("Fragment schema not found; " +:+ name))
    | Some fragmentSchema =>
        texts ← mapM (compileSelection this fuel parentSchema)
                  (frag_selections (lf_node fragmentSchema));
        Ok (join nl texts)
    end.
Proof. reflexivity. Qed.

Lemma getResponseClass_unfold fuel node :
  getResponseClass this fuel node
  = (fields ← mapM (compileRootSelection this fuel (operationSchemaOf this node))
                (op_selections node);
     Ok (blockString
           (publicClass (_getResponseClassName node) (nl +:+ join nl fields)))).
Proof. reflexivity. Qed.

Lemma getFragmentClass_unfold fuel node :
  getFragmentClass this fuel node
  = (fields ← mapM (compileRootSelection this fuel
                      (findObjectType this
                         (fun n => String.eqb n (frag_typeCondition node))))
                (frag_selections node);
     Ok (blockString
           (publicClass (convertName (NodeNamed (Some (frag_name node))))
              (nl +:+ join nl fields)))).
Proof. reflexivity. Qed.

(** C6 (amended): a selected field that the parent type does not have
    throws [Field schema not found] with the field name. A spread of a
    fragment that is not among the known fragments throws [Fragment schema
    not found] with the fragment name where the spread is inlined: beside
    other selections of a composite field, or inside an inlined fragment.
    Such a failure gives no text and aborts the selection set it occurs
    in, up to the response class. A spread that is the sole selection of a
    field is not looked up: known or not, the field compiles to a property
    of the class the spread names. A spread at the root of an operation is
    rejected as [Unknown kind; FragmentSpread], an error that does not name
    the fragment. *)
Theorem missing_schema_aborts fuel :
  (forall name selectionSet parent,
     List.find (fun f => String.eqb (fd_name f) name) (obj_fields parent) = None ->
     _getFieldDefinition this (S fuel) name selectionSet (Some parent)
     = Throw (Error ("Field schema not found; " +:+ name)))
  /\ (forall name parentSchema,
        List.find (fun f => String.eqb (lf_name f) name) (_fragments this) = None ->
        _getFragmentSpreadDefinition this (S fuel) name parentSchema
        = Throw (Error ("Fragment schema not found; " +:+ name)))
  /\ (forall name parent fieldSchema rt pre s post texts e,
        List.find (fun f => String.eqb (fd_name f) name) (obj_fields parent)
        = Some fieldSchema ->
        resolveFieldType this (fd_type fieldSchema) false = Ok rt ->
        (forall n, (pre ++ s :: post)%list <> [FragmentSpread n]) ->
        mapM (compileSelection this fuel
                (findObjectType this (String.eqb (type (baseType rt))))) pre
        = Ok texts ->
        compileSelection this fuel
          (findObjectType this (String.eqb (type (baseType rt)))) s = Throw e ->
        _getFieldDefinition this (S fuel) name (Some (pre ++ s :: post)%list)
          (Some parent) = Throw e)
  /\ (forall node pre s post texts e,
        op_selections node = (pre ++ s :: post)%list ->
        mapM (compileRootSelection this fuel (operationSchemaOf this node)) pre
        = Ok texts ->
        compileRootSelection this fuel (operationSchemaOf this node) s = Throw e ->
        getResponseClass this fuel node = Throw e)
  /\ (forall name parent fieldSchema rt fragmentName,
        List.find (fun f => String.eqb (fd_name f) name) (obj_fields parent)
        = Some fieldSchema ->
        resolveFieldType this (fd_type fieldSchema) false = Ok rt ->
        let className := convertName (NodeNamed (Some fragmentName)) in
        _getFieldDefinition this (S fuel) name
          (Some [FragmentSpread fragmentName]) (Some parent)
        = Ok (indentMultiline
                ("[JsonProperty(" +:+ dq +:+ name +:+ dq +:+ ")]" +:+ nl +:+
                 "public " +:+
                 (if bool_decide (is_Some (listType rt))
                  then "List<" +:+ className +:+ ">" else className) +:+
                 " " +:+
                 (if bool_decide (is_Some (listType rt))
                  then className +:+ "s" else className) +:+
                 " { get; set; }" +:+ nl) 1))
  /\ (forall node pre fragmentName post texts,
        op_selections node = (pre ++ FragmentSpread fragmentName :: post)%list ->
        mapM (compileRootSelection this fuel (operationSchemaOf this node)) pre
        = Ok texts ->
        getResponseClass this fuel node
        = Throw (Error "Unknown kind; FragmentSpread in OperationDefinitionNode")).
Proof.
  split; [|split; [|split; [|split; [|split]]]].
  - intros name ss parent Hf. cbn [_getFieldDefinition]. now rewrite Hf.
  - intros name parentSchema Hf. rewrite _getFragmentSpreadDefinition_S.
    now rewrite Hf.
  - intros name parent fieldSchema rt pre s post texts e Hf Hr Hshape Hpre Hs.
    rewrite (_getFieldDefinition_found fuel name _ _ _ _ Hf Hr).
    apply soleFragmentSpread_None in Hshape. rewrite Hshape. cbv zeta.
    now rewrite (mapM_app_Throw _ _ _ _ texts e Hpre Hs).
  - intros node pre s post texts e Hsel Hpre Hs.
    rewrite getResponseClass_unfold, Hsel.
    now rewrite (mapM_app_Throw _ _ _ _ texts e Hpre Hs).
  - intros name parent fieldSchema rt fragmentName Hf Hr.
    rewrite (_getFieldDefinition_found fuel name _ _ _ _ Hf Hr).
    cbn [soleFragmentSpread]. cbv zeta.
    rewrite propertyText_lines. unfold _getFragmentClassName, propertyLines.
    destruct (listType rt); reflexivity.
  - intros node pre fragmentName post texts Hsel Hpre.
    rewrite getResponseClass_unfold, Hsel.
    now rewrite (mapM_app_Throw
                   (compileRootSelection this fuel (operationSchemaOf this node))
                   pre (FragmentSpread fragmentName) post texts
                   (Error "Unknown kind; FragmentSpread in OperationDefinitionNode")
                   Hpre eq_refl).
Qed.

(** C7: a selection set with an inline fragment never compiles to text,
    whether it is the selection set of a composite field, of a fragment
    that is inlined, or of an operation or fragment at top level. When the
    selections before the inline fragment compile, what is thrown is the
    error that names the selection kind: [Unsupported kind; ...
    InlineFragment] under a field or an inlined fragment, [Unknown kind;
    InlineFragment ...] at top level. *)
Theorem inline_fragment_unsupported pre tc ss post :
  let selections := (pre ++ InlineFragment tc ss :: post)%list in
  (* among the sub-selections of a composite field *)
  (forall fuel name parentSchema,
     isOk (_getFieldDefinition this fuel name (Some selections) parentSchema)
     = false)
  /\ (forall fuel name parent fieldSchema rt texts,
        List.find (fun f => String.eqb (fd_name f) name) (obj_fields parent)
        = Some fieldSchema ->
        resolveFieldType this (fd_type fieldSchema) false = Ok rt ->
        mapM (compileSelection this fuel
                (findObjectType this (String.eqb (type (baseType rt))))) pre
        = Ok texts ->
        _getFieldDefinition this (S fuel) name (Some selections) (Some parent)
        = Throw (Error "Unsupported kind; [object Object] InlineFragment"))
  (* among the selections of a fragment that is inlined *)
  /\ (forall fuel name parentSchema fragmentSchema,
        List.find (fun f => String.eqb (lf_name f) name) (_fragments this)
        = Some fragmentSchema ->
        frag_selections (lf_node fragmentSchema) = selections ->
        isOk (_getFragmentSpreadDefinition this fuel name parentSchema) = false
        /\ (forall texts,
              mapM (compileSelection this fuel parentSchema) pre = Ok texts ->
              _getFragmentSpreadDefinition this (S fuel) name parentSchema
              = Throw (Error "Unsupported kind; [object Object] InlineFragment")))
  (* at the top level of an operation *)
  /\ (forall fuel node,
        op_selections node = selections ->
        isOk (getResponseClass this fuel node) = false
        /\ (forall texts,
              mapM (compileRootSelection this fuel (operationSchemaOf this node))
                pre = Ok texts ->
              getResponseClass this fuel node
              = Throw (Error
                         "Unknown kind; InlineFragment in OperationDefinitionNode")))
  (* at the top level of a fragment *)
  /\ (forall fuel node,
        frag_selections node = selections ->
        isOk (getFragmentClass this fuel node) = false
        /\ (forall texts,
              mapM (compileRootSelection this fuel
                      (findObjectType this
                         (fun n => String.eqb n (frag_typeCondition node))))
                pre = Ok texts ->
              getFragmentClass this fuel node
              = Throw (Error
                         "Unknown kind; InlineFragment in OperationDefinitionNode"))).
Proof.
  intros selections. subst selections.
  split; [|split; [|split; [|split]]].
  - intros fuel name parentSchema. apply _getFieldDefinition_inline_not_Ok.
  - intros fuel name parent fieldSchema rt texts Hf Hr Hpre.
    rewrite (_getFieldDefinition_found fuel name _ _ _ _ Hf Hr).
    rewrite soleFragmentSpread_inline. cbv zeta.
    now rewrite (proj2 (compileSelection_inline fuel _ pre tc ss post) texts Hpre).
  - intros fuel name parentSchema fragmentSchema Hf Hsel. split.
    + destruct fuel as [|fuel]; [reflexivity|].
      rewrite _getFragmentSpreadDefinition_S, Hf, Hsel.
      apply isOk_bind, compileSelection_inline.
    + intros texts Hpre. rewrite _getFragmentSpreadDefinition_S, Hf, Hsel.
      now rewrite (proj2 (compileSelection_inline fuel _ pre tc ss post) texts Hpre).
  - intros fuel node Hsel. rewrite getResponseClass_unfold, Hsel. split.
    + apply isOk_bind, compileRootSelection_inline.
    + intros texts Hpre.
      now rewrite (proj2 (compileRootSelection_inline fuel _ pre tc ss post)
                     texts Hpre).
  - intros fuel node Hsel. rewrite getFragmentClass_unfold, Hsel. split.
    + apply isOk_bind, compileRootSelection_inline.
    + intros texts Hpre.
      now rewrite (proj2 (compileRootSelection_inline fuel _ pre tc ss post)
                     texts Hpre).
Qed.

Lemma findObjectType_None (p : string -> bool) :
  (forall o, In (ObjectTypeDefinition o) (_schemaAST this) -> p (obj_name o) = false) ->
  findObjectType this p = None.
Proof.
  intros Hall. unfold findObjectType.
  replace (List.find _ (_schemaAST this)) with (@None DefinitionNode);
    [reflexivity|].
  symmetry. apply find_none_iff. intros [| | | |o|] Hin; try reflexivity.
  now apply Hall.
Qed.

(** C9: when no object type definition of the schema has the operation
    kind as its lowercased name, [getOperationConcreteMethod] throws
    [Operation schema not found] with the kind, while [getResponseClass],
    which does not check, passes the absent type on: compiling the first
    root field reads [fields] of [undefined], a [TypeError]. *)
Theorem operation_schema_not_found (node : OperationDefinitionNode) :
  (forall o, In (ObjectTypeDefinition o) (_schemaAST this) ->
             toLowerCase (obj_name o) <> operationString (op_operation node)) ->
  operationSchemaOf this node = None
  /\ getOperationConcreteMethod this node
     = Throw (Error ("Operation schema not found; " +:+
                     operationString (op_operation node)))
  /\ (forall fuel n ss rest,
        op_selections node = Field n ss :: rest ->
        getResponseClass this (S fuel) node = Throw (TypeError "fields")).
Proof.
  intros Hno.
  assert (operationSchemaOf this node = None) as Hnone.
  { apply findObjectType_None. intros o Hin.
    apply String.eqb_neq. now apply Hno. }
  split; [exact Hnone|]. split.
  - unfold getOperationConcreteMethod.
    change (findObjectType this _) with (operationSchemaOf this node).
    now rewrite Hnone.
  - intros fuel n ss rest Hsel.
    rewrite getResponseClass_unfold, Hsel, Hnone. reflexivity.
Qed.

(** C10: the handler returns [null] for an operation without a name (or
    with an empty one), without throwing and without recording the
    operation; a named operation is recorded. *)
Theorem OperationDefinition_anonymous (fuel : nat) (node : OperationDefinitionNode) :
  (op_name node = None \/ op_name node = Some "" ->
   OperationDefinition this fuel node = (this, Ok None))
  /\ (truthy (op_name node) = true ->
      _collectedOperations (fst (OperationDefinition this fuel node))
      = (_collectedOperations this ++ [node])%list).
Proof.
  unfold OperationDefinition. split.
  - intros [E|E]; rewrite E; reflexivity.
  - intros E. rewrite E. reflexivity.
Qed.

End SelectionCompiler.

(** ** Fuel

    A call that returns or throws with some fuel does the same with more:
    fuel only bounds the depth of fragment inlining. *)

Lemma mapM_fuel_mono {A B} (f g : A -> result B) (l : list A) :
  (forall x, f x <> OutOfFuel -> g x = f x) ->
  mapM f l <> OutOfFuel -> mapM g l = mapM f l.
Proof.
  intros Hfg. induction l as [|x l IH]; [reflexivity|].
  rewrite !mapM_cons. intros Hne.
  destruct (f x) as [y| |] eqn:Ex.
  - rewrite (Hfg x) by (rewrite Ex; discriminate). rewrite Ex.
    cbn [mbind result_bind] in *.
    destruct (mapM f l) as [k| |] eqn:El.
    + rewrite IH by discriminate. reflexivity.
    + rewrite IH by discriminate. reflexivity.
    + now destruct Hne.
  - rewrite (Hfg x) by (rewrite Ex; discriminate). now rewrite Ex.
  - now destruct Hne.
Qed.

Lemma bind_not_OutOfFuel {A B} (m : result A) (f : A -> result B) :
  m ≫= f <> OutOfFuel -> m <> OutOfFuel.
Proof. destruct m; simpl; congruence. Qed.

Section Fuel.
Context `{Helpers}.
Variable this : CSharpOperationsVisitor.

Lemma compileSelection_mono fuel :
  (forall name ss ps,
     _getFieldDefinition this fuel name ss ps <> OutOfFuel ->
     _getFieldDefinition this (S fuel) name ss ps
     = _getFieldDefinition this fuel name ss ps)
  /\ (forall name ps,
        _getFragmentSpreadDefinition this fuel name ps <> OutOfFuel ->
        _getFragmentSpreadDefinition this (S fuel) name ps
        = _getFragmentSpreadDefinition this fuel name ps).
Proof.
  induction fuel as [|fuel [IHf IHs]].
  { split; intros; exfalso; auto. }
  assert (forall ps s, compileSelection this fuel ps s <> OutOfFuel ->
            compileSelection this (S fuel) ps s = compileSelection this fuel ps s)
    as Hsel.
  { intros ps [n ss|n|tc ss] Hne; [now apply IHf|now apply IHs|reflexivity]. }
  split.
  - intros name ss ps Hne.
    destruct ps as [parent|]; [|reflexivity].
    destruct (List.find (fun f => String.eqb (fd_name f) name) (obj_fields parent))
      as [fieldSchema|] eqn:Hf;
      [|cbn [_getFieldDefinition]; now rewrite Hf].
    destruct (resolveFieldType this (fd_type fieldSchema) false) as [rt| |] eqn:Hr;
      [|cbn [_getFieldDefinition]; now rewrite Hf, Hr..].
    rewrite (_getFieldDefinition_found this (S fuel) name ss _ _ _ Hf Hr).
    rewrite (_getFieldDefinition_found this fuel name ss _ _ _ Hf Hr) in Hne |- *.
    destruct ss as [selections|]; [|reflexivity].
    cbv zeta in *. destruct (soleFragmentSpread selections); [reflexivity|].
    rewrite (mapM_fuel_mono _ _ selections (Hsel _)); [reflexivity|].
    now apply bind_not_OutOfFuel in Hne.
  - intros name ps Hne.
    rewrite (_getFragmentSpreadDefinition_S this fuel) in Hne |- *.
    rewrite (_getFragmentSpreadDefinition_S this (S fuel)).
    destruct (List.find _ (_fragments this)) as [fragmentSchema|]; [|reflexivity].
    rewrite (mapM_fuel_mono _ _ _ (Hsel _)); [reflexivity|].
    now apply bind_not_OutOfFuel in Hne.
Qed.

End Fuel.

(** ** The typesafe flag *)

Section TypesafeFlag.
Context `{Helpers}.

Lemma repeatString_S (s : string) (n : nat) :
  repeatString s (S n) = s +:+ repeatString s n.
Proof.
  unfold repeatString. destruct n as [|n]; cbn [replicate String.concat].
  - now rewrite string_app_empty_r.
  - reflexivity.
Qed.

Lemma forEachAppend_const {A} (l : list A) (buffer : string) :
  forEachAppend (fun _ => Ok "") l buffer
  = Ok (buffer +:+ repeatString nl (length l)).
Proof.
  revert buffer. induction l as [|x l IH]; intros buffer.
  - simpl. now rewrite string_app_empty_r.
  - cbn [forEachAppend mbind result_bind length]. rewrite IH. f_equal.
    change ("" +:+ nl) with nl. now rewrite string_app_assoc, repeatString_S.
Qed.

Lemma forEachAppend_ext {A} (f g : A -> result string) l buffer :
  (forall x, f x = g x) -> forEachAppend f l buffer = forEachAppend g l buffer.
Proof.
  intros E. revert buffer. induction l as [|x l IH]; intros buffer;
    [reflexivity|].
  cbn [forEachAppend]. rewrite E. destruct (g x); simpl; auto.
Qed.

(** With the typesafe flag off the three visitor handlers emit no
    declaration, and a generation run that finishes has emitted no input
    declaration: its input buffer holds one line break per input type and
    nothing else. *)
Lemma typesafe_off_handlers (fuel : nat) (schema : GraphQLSchema)
    (documents : list (list DefinitionNode))
    (rawConfig : CSharpOperationsRawPluginConfig) :
  default false (raw_typesafeOperation rawConfig) = false ->
  let visitor :=
    newVisitor schema (allFragmentsOf schema documents rawConfig) rawConfig in
  (forall node, InputObjectTypeDefinition visitor node = Ok "")
  /\ (forall node, EnumTypeDefinition visitor node = "")
  /\ (forall node, truthy (op_name node) = true ->
        snd (OperationDefinition visitor fuel node) = Ok (Some ""))
  /\ (forall buffers,
        pluginBuffers fuel schema documents rawConfig = Ok buffers ->
        inputDefinitions buffers
        = repeatString nl (length (inputTypesOf (allAstOf schema documents)))).
Proof.
  intros Hoff visitor.
  assert (typesafeOperation (config visitor) = false) as Hflag by exact Hoff.
  assert (forall node, InputObjectTypeDefinition visitor node = Ok "") as Hin.
  { intros node. unfold InputObjectTypeDefinition. now rewrite Hflag. }
  split; [exact Hin|]. split; [|split].
  - intros node. unfold EnumTypeDefinition. now rewrite Hflag.
  - intros node Hname. unfold OperationDefinition. rewrite Hname, Hflag.
    reflexivity.
  - intros buffers Hrun. unfold pluginBuffers in Hrun.
    fold visitor in Hrun.
    rewrite (forEachAppend_ext _ (fun _ => Ok "") _ _ Hin) in Hrun.
    rewrite forEachAppend_const in Hrun. cbn [mbind result_bind] in Hrun.
    repeat (apply bind_Ok in Hrun as (? & _ & Hrun)).
    injection Hrun as <-. reflexivity.
Qed.

End TypesafeFlag.

(** C1 (the code at the failing input): a run with the typesafe flag off,
    on a document with the query [ping], which has variables, and a schema
    with the enum [Color] and the input type [Filter], finishes; its
    output has the request class, the response class and the enum
    declaration, and lacks only the input declaration, which the request
    class refers to. *)
Lemma typesafe_off_still_emits :
  default false (raw_typesafeOperation (Sample.rawConfig (Some false))) = false
  /\ match @plugin Sample.helpers 5 Sample.schema Sample.documents
             (Sample.rawConfig (Some false)) with
     | Ok text =>
         includes "public class PingRequest" text
         && includes "public Filter Filter { get; set; }" text
         && includes "public class PingPayload" text
         && includes "public enum Color" text
         && negb (includes "class Filter" text)
     | _ => false
     end = true
  /\ match @pluginBuffers Sample.helpers 5 Sample.schema Sample.documents
             (Sample.rawConfig (Some false)) with
     | Ok buffers =>
         String.eqb (requestDefinitions buffers)
           (("public class PingRequest {" +:+ nl +:+
            nl +:+
            "  [JsonProperty(" +:+ dq +:+ "msg" +:+ dq +:+ ")]" +:+ nl +:+
            "  public string Msg { get; set; }" +:+ nl +:+
            "  " +:+ nl +:+
            "  [JsonProperty(" +:+ dq +:+ "filter" +:+ dq +:+ ")]" +:+ nl +:+
            "  public Filter Filter { get; set; }" +:+ nl +:+
            "  " +:+ nl +:+
            "public PingRequest(string msg, Filter filter) {" +:+ nl +:+
            "  Msg = msg;" +:+ nl +:+
            "  Filter = filter;" +:+ nl +:+
            "}" +:+ nl +:+
            "}" +:+ nl) +:+ nl)
         && String.eqb (inputDefinitions buffers) nl
     | _ => false
     end = true.
Proof. split; [reflexivity|]. split; vm_compute; reflexivity. Qed.

Lemma typesafe_off_handlers_witness :
  @InputObjectTypeDefinition Sample.helpers
    (@newVisitor Sample.helpers Sample.schema
       (allFragmentsOf Sample.schema Sample.documents (Sample.rawConfig None))
       (Sample.rawConfig None)) Sample.filterInput = Ok "".
Proof.
  destruct (@typesafe_off_handlers Sample.helpers 5 Sample.schema
              Sample.documents (Sample.rawConfig None) eq_refl) as [Hin _].
  exact (Hin Sample.filterInput).
Defined.

(** ** The statements on the sample schema *)

Lemma getRequestClass_shape_witness :
  @getRequestClass Sample.helpers Sample.visitor Sample.usersQuery = Ok ""
  /\ @getRequestClass Sample.helpers Sample.visitor Sample.pingQuery
     = Ok ("public class PingRequest {" +:+ nl +:+
           nl +:+
           "  [JsonProperty(" +:+ dq +:+ "msg" +:+ dq +:+ ")]" +:+ nl +:+
           "  public string Msg { get; set; }" +:+ nl +:+
           "  " +:+ nl +:+
           "  [JsonProperty(" +:+ dq +:+ "filter" +:+ dq +:+ ")]" +:+ nl +:+
           "  public Filter Filter { get; set; }" +:+ nl +:+
           "  " +:+ nl +:+
           "public PingRequest(string msg, Filter filter) {" +:+ nl +:+
           "  Msg = msg;" +:+ nl +:+
           "  Filter = filter;" +:+ nl +:+
           "}" +:+ nl +:+
           "}" +:+ nl).
Proof.
  split.
  - exact (proj1 (@getRequestClass_shape Sample.helpers Sample.visitor
                    Sample.usersQuery) eq_refl).
  - refine (eq_trans
              (proj1 (proj2 (@getRequestClass_shape Sample.helpers Sample.visitor
                               Sample.pingQuery)
                        [Sample.msgType; Sample.filterType] _ eq_refl))
              _).
    + discriminate.
    + vm_compute. reflexivity.
Defined.

Lemma _getFieldDefinition_composite_witness :
  @_getFieldDefinition Sample.helpers Sample.visitor 2 "me"
    (Some [FragmentSpread "userFields"]) (Some Sample.queryType)
  = Ok ("  [JsonProperty(" +:+ dq +:+ "me" +:+ dq +:+ ")]" +:+ nl +:+
          "  public UserFields UserFields { get; set; }" +:+ nl +:+
          "  ")
  /\ @_getFieldDefinition Sample.helpers Sample.visitor 3 "users"
       (Some [Field "id" None; FragmentSpread "userFields"])
       (Some Sample.queryType)
     = Ok ("  public class UserResult {" +:+ nl +:+
             "    [JsonProperty(" +:+ dq +:+ "id" +:+ dq +:+ ")]" +:+ nl +:+
             "    public string Id { get; set; }" +:+ nl +:+
             "    " +:+ nl +:+
             "    [JsonProperty(" +:+ dq +:+ "id" +:+ dq +:+ ")]" +:+ nl +:+
             "    public string Id { get; set; }" +:+ nl +:+
             "    " +:+ nl +:+
             "    [JsonProperty(" +:+ dq +:+ "age" +:+ dq +:+ ")]" +:+ nl +:+
             "    public int? Age { get; set; }" +:+ nl +:+
             "    " +:+ nl +:+
             "  }" +:+ nl +:+
             "  " +:+ nl +:+
             "  [JsonProperty(" +:+ dq +:+ "users" +:+ dq +:+ ")]" +:+ nl +:+
             "  public List<UserResult> Result { get; set; }" +:+ nl +:+
             "  ").
Proof.
  split.
  - refine (eq_trans
              (proj1 (@_getFieldDefinition_composite Sample.helpers
                        Sample.visitor 1 "me" [FragmentSpread "userFields"]
                        Sample.queryType
                        {| fd_name := "me"; fd_type := NamedType "User" |}
                        Sample.meType eq_refl eq_refl) "userFields" eq_refl)
              _).
    vm_compute. reflexivity.
  - refine (eq_trans
              (proj2 (@_getFieldDefinition_composite Sample.helpers
                        Sample.visitor 2 "users"
                        [Field "id" None; FragmentSpread "userFields"]
                        Sample.queryType
                        {| fd_name := "users";
                           fd_type := NonNullType (ListType (NonNullType
                                                    (NamedType "User"))) |}
                        Sample.usersType eq_refl eq_refl)
                 Sample.usersFields _ eq_refl)
              _).
    + intros n. discriminate.
    + vm_compute. reflexivity.
Defined.

(** C6, as stated, fails: the fragment [ghost] is not among the known
    fragments, yet the field [me] that spreads it as its sole selection
    compiles, to a property of a class [Ghost] that nothing declares. *)
Lemma unknown_sole_fragment_tolerated :
  List.find (fun f => String.eqb (lf_name f) "ghost") (_fragments Sample.visitor)
  = None
  /\ @_getFieldDefinition Sample.helpers Sample.visitor 1 "me"
       (Some [FragmentSpread "ghost"]) (Some Sample.queryType)
     = Ok ("  [JsonProperty(" +:+ dq +:+ "me" +:+ dq +:+ ")]" +:+ nl +:+
             "  public Ghost Ghost { get; set; }" +:+ nl +:+
             "  ").
Proof. split; vm_compute; reflexivity. Qed.

Lemma missing_schema_aborts_witness :
  @_getFieldDefinition Sample.helpers Sample.visitor 1 "nope" None
    (Some Sample.queryType)
  = Throw (Error "Field schema not found; nope")
  /\ @_getFragmentSpreadDefinition Sample.helpers Sample.visitor 1 "ghost"
       (Some Sample.userType)
     = Throw (Error "Fragment schema not found; ghost")
  /\ @_getFieldDefinition Sample.helpers Sample.visitor 2 "me"
       (Some [Field "id" None; FragmentSpread "ghost"]) (Some Sample.queryType)
     = Throw (Error "Fragment schema not found; ghost")
  /\ @_getFieldDefinition Sample.helpers Sample.visitor 1 "me"
       (Some [FragmentSpread "ghost"]) (Some Sample.queryType)
     = Ok ("  [JsonProperty(" +:+ dq +:+ "me" +:+ dq +:+ ")]" +:+ nl +:+
             "  public Ghost Ghost { get; set; }" +:+ nl +:+
             "  ")
  /\ @getResponseClass Sample.helpers Sample.visitor 2
       {| op_operation := query; op_name := Some "q";
          op_variableDefinitions := [];
          op_selections := [Field "ping" None; FragmentSpread "ghost"] |}
     = Throw (Error "Unknown kind; FragmentSpread in OperationDefinitionNode").
Proof.
  destruct (@missing_schema_aborts Sample.helpers Sample.visitor 0)
    as (Hfield & Hspread & _ & _ & Hsole & _).
  destruct (@missing_schema_aborts Sample.helpers Sample.visitor 1)
    as (_ & _ & Hnested & _).
  destruct (@missing_schema_aborts Sample.helpers Sample.visitor 2)
    as (_ & _ & _ & _ & _ & Hroot).
  split; [|split; [|split; [|split]]].
  - exact (Hfield "nope" None Sample.queryType eq_refl).
  - exact (Hspread "ghost" (Some Sample.userType) eq_refl).
  - refine (Hnested "me" Sample.queryType
              {| fd_name := "me"; fd_type := NamedType "User" |} Sample.meType
              [Field "id" None] (FragmentSpread "ghost") [] _ _
              eq_refl eq_refl _ eq_refl eq_refl).
    intros n. discriminate.
  - refine (eq_trans
              (Hsole "me" Sample.queryType
                 {| fd_name := "me"; fd_type := NamedType "User" |} Sample.meType
                 "ghost" eq_refl eq_refl) _).
    vm_compute. reflexivity.
  - exact (Hroot {| op_operation := query; op_name := Some "q";
                    op_variableDefinitions := [];
                    op_selections := [Field "ping" None; FragmentSpread "ghost"] |}
             [Field "ping" None] "ghost" [] _ eq_refl eq_refl).
Defined.

Lemma inline_fragment_unsupported_witness :
  @_getFieldDefinition Sample.helpers Sample.visitor 2 "me"
    (Some [Field "id" None; InlineFragment (Some "User") [Field "age" None]])
    (Some Sample.queryType)
  = Throw (Error "Unsupported kind; [object Object] InlineFragment")
  /\ isOk (@getResponseClass Sample.helpers Sample.visitor 2
             {| op_operation := query; op_name := Some "q";
                op_variableDefinitions := [];
                op_selections := [InlineFragment None [Field "ping" None]] |})
     = false.
Proof.
  destruct (@inline_fragment_unsupported Sample.helpers Sample.visitor
              [Field "id" None] (Some "User") [Field "age" None] [])
    as (_ & Hfield & _).
  destruct (@inline_fragment_unsupported Sample.helpers Sample.visitor
              [] None [Field "ping" None] [])
    as (_ & _ & _ & Hroot & _).
  split.
  - exact (Hfield 1 "me" Sample.queryType
             {| fd_name := "me"; fd_type := NamedType "User" |} Sample.meType _
             eq_refl eq_refl eq_refl).
  - exact (proj1 (Hroot 2
                    {| op_operation := query; op_name := Some "q";
                       op_variableDefinitions := [];
                       op_selections := [InlineFragment None [Field "ping" None]] |}
                    eq_refl)).
Defined.

Lemma operation_schema_not_found_witness :
  @getOperationConcreteMethod Sample.helpers Sample.visitor Sample.tickSubscription
  = Throw (Error "Operation schema not found; subscription")
  /\ @getResponseClass Sample.helpers Sample.visitor 1 Sample.tickSubscription
     = Throw (TypeError "fields").
Proof.
  destruct (@operation_schema_not_found Sample.helpers Sample.visitor
              Sample.tickSubscription) as (_ & Hmethod & Hresponse).
  - intros o [E|[E|[E|[E|[]]]]]; inversion E; subst o; vm_compute; discriminate.
  - split; [exact Hmethod|]. exact (Hresponse 0 "tick" None [] eq_refl).
Defined.

Lemma OperationDefinition_anonymous_witness :
  @OperationDefinition Sample.helpers Sample.visitor 3 Sample.anonymousQuery
  = (Sample.visitor, Ok None).
Proof.
  exact (proj1 (@OperationDefinition_anonymous Sample.helpers Sample.visitor 3
                  Sample.anonymousQuery) (or_introl eq_refl)).
Defined.

(** * Further properties of the generator *)

(** ** Names *)

Lemma string_app_cons (x : Ascii.ascii) (y z : string) :
  String x y +:+ z = String x (y +:+ z).
Proof. reflexivity. Qed.

Lemma prefix_Get_app (c suffix : string) :
  startsWith "Get" c = true ->
  startsWith "Get" (c +:+ suffix) = true
  /\ sliceFrom 3 (c +:+ suffix) = sliceFrom 3 c +:+ suffix.
Proof.
  unfold startsWith.
  destruct c as [|a [|b [|d c]]]; cbn [String.prefix]; try discriminate;
    repeat (destruct (Ascii.ascii_dec _ _); try discriminate).
  intros _. subst. split; [|reflexivity].
  change (String.prefix "Get" (String "G" (String "e" (String "t" (c +:+ suffix))))
          = true).
  cbn [String.prefix].
  repeat (destruct (Ascii.ascii_dec _ _); [|congruence]).
  now destruct (c +:+ suffix).
Qed.

Lemma prefix_Get_Payload (c : string) :
  startsWith "Get" (c +:+ "Payload") = startsWith "Get" c.
Proof.
  destruct (startsWith "Get" c) eqn:E.
  - now apply prefix_Get_app.
  - unfold startsWith in *.
    destruct c as [|a [|b [|d c]]];
      repeat first
        [ rewrite string_app_cons
        | progress change ("" +:+ "Payload") with "Payload"
        | progress cbn [String.prefix] in *
        | reflexivity
        | discriminate
        | destruct (Ascii.ascii_dec _ _) ].
    all: match goal with
         | E : String.prefix "" ?c = false |- _ => destruct c; discriminate
         end.
Qed.

Section Names.
Context `{Helpers}.

(** X1: the response class name always ends in [Payload]: the [Get] that
    is stripped is a prefix of the converted operation name itself, never
    of the suffix, so the name is the converted operation name without a
    leading [Get], followed by [Payload]. *)
Theorem _getResponseClassName_stem (node : OperationDefinitionNode) :
  let converted := convertName (NodeNamed (op_name node)) in
  _getResponseClassName node
  = (if startsWith "Get" converted then sliceFrom 3 converted else converted)
    +:+ "Payload".
Proof.
  intros converted. unfold _getResponseClassName. fold converted.
  rewrite prefix_Get_Payload.
  destruct (startsWith "Get" converted) eqn:E; [|reflexivity].
  now apply prefix_Get_app.
Qed.

End Names.

(** ** Looking up the types of the schema *)

Lemma forEachAppend_Ok_all {A} (f : A -> result string) (l : list A) b r :
  forEachAppend f l b = Ok r -> forall x, In x l -> isOk (f x) = true.
Proof.
  revert b. induction l as [|a l IH]; intros b E x Hin; [destruct Hin|].
  cbn [forEachAppend] in E. apply bind_Ok in E as (d & Hd & E).
  destruct Hin as [<-|Hin]; [now rewrite Hd|]. eapply IH; eauto.
Qed.

Lemma in_operationsOf (defs : list DefinitionNode) (o : OperationDefinitionNode) :
  In o (operationsOf defs) <-> In (OperationDefinitionD o) defs.
Proof.
  unfold operationsOf. rewrite <- !list_elem_of_In, list_elem_of_omap. split.
  - intros (d & Hd & E). destruct d; try discriminate. now injection E as ->.
  - intros Hd. exists (OperationDefinitionD o). split; [exact Hd|reflexivity].
Qed.

Section Lookup.
Context `{Helpers}.
Variable this : CSharpOperationsVisitor.

(** X2: the lookup of an object type definition by a test on its name
    gives the first object type definition of the schema document that
    passes the test, and nothing exactly when no object type definition
    passes it; definitions of other kinds are skipped whatever their name. *)
Theorem findObjectType_first (p : string -> bool) :
  (forall o, findObjectType this p = Some o ->
     p (obj_name o) = true /\ In (ObjectTypeDefinition o) (_schemaAST this))
  /\ (findObjectType this p = None <->
      forall o, In (ObjectTypeDefinition o) (_schemaAST this) ->
                p (obj_name o) = false)
  /\ (forall pre o post,
        _schemaAST this = (pre ++ ObjectTypeDefinition o :: post)%list ->
        p (obj_name o) = true ->
        (forall o', In (ObjectTypeDefinition o') pre -> p (obj_name o') = false) ->
        findObjectType this p = Some o).
Proof.
  unfold findObjectType.
  set (q := fun d => match d with
                     | ObjectTypeDefinition o => p (obj_name o)
                     | _ => false
                     end).
  split; [|split].
  - intros o E. destruct (List.find q (_schemaAST this)) as [d|] eqn:Hd;
      [|discriminate].
    apply List.find_some in Hd as [Hin Hq].
    destruct d; try discriminate. injection E as ->. now split.
  - split.
    + intros E o Hin. destruct (List.find q (_schemaAST this)) as [d|] eqn:Hd.
      * apply List.find_some in Hd as [_ Hq]. destruct d; discriminate.
      * apply (List.find_none _ _ Hd _ Hin).
    + intros Hall. now apply findObjectType_None.
  - intros pre o post -> Hp Hpre.
    assert (List.find q (pre ++ ObjectTypeDefinition o :: post)
            = Some (ObjectTypeDefinition o)) as ->; [|reflexivity].
    induction pre as [|d pre IH]; cbn [app List.find].
    + cbn [q]. now rewrite Hp.
    + assert (q d = false) as ->.
      { destruct d; try reflexivity. apply Hpre. now left. }
      apply IH. intros o' Hin. apply Hpre. now right.
Qed.

(** X3: [getOperationConcreteMethod] returns text exactly for a named
    operation whose kind has a root type in the schema. With a root type
    and no name it reads [value] of the absent name, a [TypeError]. *)
Theorem getOperationConcreteMethod_returns (node : OperationDefinitionNode) :
  (isOk (getOperationConcreteMethod this node) = true <->
   is_Some (op_name node) /\ is_Some (operationSchemaOf this node))
  /\ (op_name node = None -> is_Some (operationSchemaOf this node) ->
      getOperationConcreteMethod this node = Throw (TypeError "value")).
Proof.
  unfold getOperationConcreteMethod.
  change (findObjectType this _) with (operationSchemaOf this node).
  destruct (operationSchemaOf this node) as [o|].
  - unfold _getDocumentNodeVariable, nameValue.
    destruct (op_name node) as [n|].
    + split; [|discriminate]. split; [intros _; split; eauto|intros _].
      destruct (httpClientConfig (config this)), (documentMode (config this)),
        (op_operation node); reflexivity.
    + split; [split|].
      * destruct (httpClientConfig (config this)), (documentMode (config this));
          discriminate.
      * intros [[? E] _]. discriminate.
      * intros _ _.
        destruct (httpClientConfig (config this)), (documentMode (config this));
          reflexivity.
  - split.
    + split; [discriminate|]. intros [_ [? E]]. discriminate.
    + intros _ [? E]. discriminate.
Qed.

End Lookup.

(** X4: a generation run that produces output has compiled a method for
    every operation of the documents, so every one of them has a name and
    a root type in the schema: a single anonymous operation, or one whose
    kind the schema has no root type for, makes the whole run fail. *)
Theorem plugin_operations_named `{Helpers} (fuel : nat) (schema : GraphQLSchema)
    (documents : list (list DefinitionNode))
    (rawConfig : CSharpOperationsRawPluginConfig) (text : string) :
  plugin fuel schema documents rawConfig = Ok text ->
  forall document operation,
    In document documents -> In (OperationDefinitionD operation) document ->
    is_Some (op_name operation)
    /\ is_Some (operationSchemaOf
                  (newVisitor schema (allFragmentsOf schema documents rawConfig)
                     rawConfig) operation).
Proof.
  intros Hrun document operation Hdoc Hop.
  unfold plugin in Hrun. apply bind_Ok in Hrun as (buffers & Hbuf & _).
  unfold pluginBuffers in Hbuf.
  apply bind_Ok in Hbuf as (b1 & _ & Hbuf).
  apply bind_Ok in Hbuf as (b2 & _ & Hbuf).
  apply bind_Ok in Hbuf as (b3 & _ & Hbuf).
  apply bind_Ok in Hbuf as (b4 & Hmethods & _).
  apply getOperationConcreteMethod_returns.
  apply (forEachAppend_Ok_all _ _ _ _ Hmethods).
  apply in_operationsOf. unfold allAstOf. apply in_concat.
  exists document. split; [|exact Hop]. apply in_or_app. now left.
Qed.

(** ** Selections on types the schema document has no object type for *)

Section AbsentTypes.
Context `{Helpers}.
Variable this : CSharpOperationsVisitor.

(** X5: [getFragmentClass] does not check that the type condition names an
    object type definition: for a fragment on any other type (an interface,
    a union, an unknown name) whose first selection is a field, compiling
    that field reads [fields] of [undefined], a [TypeError]. *)
Theorem getFragmentClass_absent_type (fuel : nat) (node : FragmentDefinitionNode)
    n ss rest :
  (forall o, In (ObjectTypeDefinition o) (_schemaAST this) ->
             obj_name o <> frag_typeCondition node) ->
  frag_selections node = Field n ss :: rest ->
  getFragmentClass this (S fuel) node = Throw (TypeError "fields").
Proof.
  intros Hno Hsel. rewrite getFragmentClass_unfold, Hsel.
  rewrite findObjectType_None; [reflexivity|].
  intros o Hin. apply String.eqb_neq. now apply Hno.
Qed.

(** X6: the same holds one level down: a composite field whose resolved
    base type has no object type definition, and whose first sub-selection
    is a field, throws that [TypeError]; sub-fields are only ever compiled
    against object type definitions. *)
Theorem _getFieldDefinition_absent_inner_type (fuel : nat) name parent
    fieldSchema rt n ss rest :
  List.find (fun f => String.eqb (fd_name f) name) (obj_fields parent)
  = Some fieldSchema ->
  resolveFieldType this (fd_type fieldSchema) false = Ok rt ->
  (forall o, In (ObjectTypeDefinition o) (_schemaAST this) ->
             obj_name o <> type (baseType rt)) ->
  _getFieldDefinition this (S (S fuel)) name (Some (Field n ss :: rest))
    (Some parent) = Throw (TypeError "fields").
Proof.
  intros Hf Hr Hno.
  rewrite (_getFieldDefinition_found this (S fuel) name _ _ _ _ Hf Hr).
  cbn [soleFragmentSpread]. cbv zeta.
  rewrite findObjectType_None; [reflexivity|].
  intros o Hin. apply String.eqb_neq. intros E. now apply (Hno o Hin).
Qed.

(** X7: inlining a fragment that spreads itself never returns text,
    whatever the depth allowed: the code has no guard against fragment
    cycles, so the call throws if another selection of the fragment throws
    first, and recurses without end otherwise. *)
Theorem _getFragmentSpreadDefinition_cycle (name : string)
    (fragmentSchema : LoadedFragment) :
  List.find (fun f => String.eqb (lf_name f) name) (_fragments this)
  = Some fragmentSchema ->
  In (FragmentSpread name) (frag_selections (lf_node fragmentSchema)) ->
  forall fuel parentSchema,
    isOk (_getFragmentSpreadDefinition this fuel name parentSchema) = false.
Proof.
  intros Hf Hin fuel. induction fuel as [|fuel IH]; intros ps; [reflexivity|].
  rewrite _getFragmentSpreadDefinition_S, Hf.
  apply isOk_bind, mapM_not_Ok.
  apply Exists_exists. exists (FragmentSpread name). split.
  - now apply list_elem_of_In.
  - apply IH.
Qed.

End AbsentTypes.

(** ** Request classes and signatures *)

Section Requests.
Context `{Helpers}.
Variable this : CSharpOperationsVisitor.

Lemma resolveFieldType_unknown (t : TypeNode) (d : bool) :
  getType (_schema this) (getBaseTypeNode t) = None ->
  resolveFieldType this t d = Throw (TypeError "name").
Proof. intros E. unfold resolveFieldType. now rewrite E. Qed.

Lemma resolveFieldType_Ok_inv (t : TypeNode) (r : CSharpFieldType) :
  resolveFieldType this t false = Ok r ->
  listType r = getListTypeField t
  /\ required (baseType r) = Some (isNonNull (getListInnerTypeNode t)).
Proof.
  intros E. destruct (getType (_schema this) (getBaseTypeNode t)) as [k|] eqn:Hk.
  - destruct (resolveFieldType_known this t k Hk) as (r' & Hr' & Hl & Hb).
    rewrite E in Hr'. injection Hr' as <-. now split.
  - rewrite (resolveFieldType_unknown t false Hk) in E. discriminate.
Qed.

(** X8: a variable whose type the schema does not have leaves the
    operation without request class: [getRequestClass] throws the
    [TypeError] of the resolver at the first such variable, whatever the
    variables after it, and gives no partial class. *)
Theorem getRequestClass_unknown_type (node : OperationDefinitionNode)
    pre v post tys :
  op_variableDefinitions node = (pre ++ v :: post)%list ->
  mapM (fun v => resolveFieldType this (variable_type v) false) pre = Ok tys ->
  getType (_schema this) (getBaseTypeNode (variable_type v)) = None ->
  getRequestClass this node = Throw (TypeError "name").
Proof.
  intros Hvars Hpre Hv. unfold getRequestClass. rewrite Hvars.
  assert ((length (pre ++ v :: post) =? 0)%nat = false) as ->.
  { rewrite length_app. cbn [length]. apply Nat.eqb_neq. lia. }
  rewrite (mapM_app_Throw (requestField this) pre v post
             (zip_with requestProperty pre tys) (TypeError "name"));
    [reflexivity|now apply request_fields|].
  unfold requestField. now rewrite resolveFieldType_unknown.
Qed.

(** X9: the requiredness written into the input signature of a variable
    is the requiredness of the outer level of the descriptor the resolver
    gives for the same type, and both are the non-null marker at the top
    of the type reference. *)
Theorem _gqlInputSignature_required (v : VariableDefinitionNode)
    (r : CSharpFieldType) :
  resolveFieldType this (variable_type v) false = Ok r ->
  sig_required (_gqlInputSignature this v) = isOuterTypeRequired r
  /\ sig_required (_gqlInputSignature this v) = isNonNull (variable_type v).
Proof.
  intros E. apply resolveFieldType_Ok_inv in E as [Hl Hb].
  unfold _gqlInputSignature, isOuterTypeRequired. cbn [sig_required].
  rewrite Hl, Hb. split.
  - destruct (getListTypeField (variable_type v)); reflexivity.
  - destruct (variable_type v) as [n|t|t]; try reflexivity.
    destruct t; reflexivity.
Qed.

End Requests.

(** ** Nested class names *)

Lemma endsWith_s_app (x : string) : endsWith_s (x +:+ "s") = true.
Proof.
  induction x as [|c x IH]; [reflexivity|].
  rewrite string_app_cons. cbn [endsWith_s].
  destruct (x +:+ "s") eqn:E; [|exact IH].
  destruct x; discriminate.
Qed.

Lemma sliceDropLast_app (x : string) : sliceDropLast (x +:+ "s") = x.
Proof.
  induction x as [|c x IH]; [reflexivity|].
  rewrite string_app_cons. cbn [sliceDropLast].
  destruct (x +:+ "s") eqn:E.
  - destruct x; discriminate.
  - now rewrite IH.
Qed.

(** X10: a list-valued field and a field that is not list-valued get the
    same nested class name when their pascal-cased names differ by a final
    [s] only (as [users] and [user]): the name alone does not tell the two
    classes apart. *)
Theorem resultClassName_collision `{Helpers} (fieldName : string)
    (listed plain : CSharpFieldType) :
  is_Some (listType listed) -> listType plain = None ->
  pascalCase (fieldName +:+ "s") = pascalCase fieldName +:+ "s" ->
  resultClassName (fieldName +:+ "s") listed = resultClassName fieldName plain.
Proof.
  intros Hl Hp Hcase. unfold resultClassName. rewrite Hcase, Hp.
  rewrite bool_decide_eq_true_2 by exact Hl.
  rewrite endsWith_s_app, sliceDropLast_app.
  rewrite bool_decide_eq_false_2; [reflexivity|].
  intros [? E]. discriminate.
Qed.

(** ** The document text in the emitted literal *)

Lemma doubleQuotes_app (a b : string) :
  doubleQuotes (a +:+ b) = doubleQuotes a +:+ doubleQuotes b.
Proof.
  induction a as [|c a IH]; [reflexivity|].
  rewrite string_app_cons. cbn [doubleQuotes].
  destruct (Ascii.ascii_dec c _); now rewrite IH.
Qed.

Lemma doubleQuotes_readVerbatim (doc rest : string) :
  startsWithQuote rest = false ->
  readVerbatim (doubleQuotes doc +:+ dq +:+ rest) = Some (doc, rest).
Proof.
  intros Hrest. induction doc as [|c doc IH].
  - change (readVerbatim (String (Ascii.ascii_of_nat 34) rest) = Some ("", rest)).
    cbn [readVerbatim]. destruct (Ascii.ascii_dec _ _) as [_|Hne]; [|congruence].
    destruct rest as [|c' rest]; [reflexivity|].
    cbn [startsWithQuote] in Hrest.
    destruct (Ascii.ascii_dec c' _); [discriminate|reflexivity].
  - cbn [doubleQuotes]. destruct (Ascii.ascii_dec c _) as [->|Hne].
    + rewrite !string_app_cons. cbn [readVerbatim].
      destruct (Ascii.ascii_dec _ _) as [_|Hne]; [|congruence].
      now rewrite IH.
    + rewrite string_app_cons. cbn [readVerbatim].
      destruct (Ascii.ascii_dec c _) as [E|_]; [congruence|].
      now rewrite IH.
Qed.

(** X11: the quotes [_gql] doubles are read back as written: a verbatim
    string literal that holds the text [_gql] gives and is then closed is
    read as the prepared document text, and ends at that closing quote,
    whatever quotes the document has. *)
Theorem _gql_readVerbatim `{Helpers} (node : OperationDefinitionNode)
    (rest : string) :
  startsWithQuote rest = false ->
  readVerbatim (_gql node +:+ dq +:+ rest)
  = Some (_prepareDocument
            (join nl [print node; _includeFragments (_transformFragments node)]),
          rest).
Proof. intros Hrest. unfold _gql. now apply doubleQuotes_readVerbatim. Qed.

(** ** The client declaration *)

(** X12: [getClientDeclaration] is empty exactly when there is no endpoint
    configuration or its primary endpoint is missing or empty. In the
    second case the methods still take no client parameter and the request
    subclass is still emitted, as [clientArgument] and
    [getHttpRequestClass] look at the presence of the configuration only:
    the generated methods then use a [client] that nothing declares. *)
Theorem getClientDeclaration_empty (this : CSharpOperationsVisitor) :
  (getClientDeclaration this = "" <->
   httpClientConfig (config this) = None
   \/ exists cfg, httpClientConfig (config this) = Some cfg
                  /\ truthy (prodEndpoint cfg) = false)
  /\ (forall cfg, httpClientConfig (config this) = Some cfg ->
        truthy (prodEndpoint cfg) = false ->
        clientArgument this = ""
        /\ getHttpRequestClass this <> ""
        /\ hasHttpClientConfig this = true).
Proof.
  unfold getClientDeclaration, clientArgument, getHttpRequestClass,
    hasHttpClientConfig.
  destruct (httpClientConfig (config this)) as [cfg|].
  - split.
    + destruct (truthy (prodEndpoint cfg)) eqn:Hp; cbn [negb]; split.
      * destruct (negb (truthy (useDevIf cfg)) || negb (truthy (devEndpoint cfg)));
          discriminate.
      * intros [E|(cfg' & E & Hp')]; [discriminate|].
        injection E as <-. congruence.
      * intros _. right. eauto.
      * reflexivity.
    + intros cfg' E Hp. split; [reflexivity|]. split; [discriminate|].
      apply bool_decide_eq_true_2. eauto.
  - split; [split; [now left|reflexivity]|discriminate].
Qed.

(** ** Input types *)

Section InputTypes.
Context `{Helpers}.
Variable this : CSharpOperationsVisitor.

Lemma input_fields_resolved (fields : list InputValueDefinitionNode) tys :
  mapM (fun f => resolveFieldType this (iv_type f) false) fields = Ok tys ->
  mapM (fun f =>
          inputType ← resolveFieldType this (iv_type f) false;
          Ok (propertyText (iv_name f)
                (wrapFieldType inputType (listType inputType) "List")
                (convertSafeName (pascalCase (iv_name f))))) fields
  = Ok (zip_with inputProperty fields tys).
Proof.
  revert tys. induction fields as [|f fields IH]; intros tys E.
  - injection E as <-. reflexivity.
  - apply mapM_cons_Ok in E as (ty & tys' & Hty & Htys & ->).
    rewrite mapM_cons, (IH _ Htys), Hty. cbn [mbind result_bind].
    rewrite propertyText_lines. reflexivity.
Qed.

Lemma filter_nonEmpty_inputProperty (fields : list InputValueDefinitionNode) tys :
  (forall s, nonEmpty (indentMultiline s 1) = true) ->
  List.filter nonEmpty (zip_with inputProperty fields tys)
  = zip_with inputProperty fields tys.
Proof.
  intros Hind. revert tys.
  induction fields as [|f fields IH]; intros [|ty tys]; try reflexivity.
  cbn [zip_with List.filter]. unfold inputProperty at 1.
  now rewrite Hind, IH.
Qed.

(** X13: with the typesafe flag on, and an indentation helper that never
    returns the empty text, an input type all of whose field types the
    resolver knows becomes one public class named after the input type,
    with one property per field, in declaration order: the attribute with
    the field name, then the declaration of the wrapped field type under
    the pascal-cased, escaped field name. No property is dropped. *)
Theorem InputObjectTypeDefinition_typesafe (node : InputObjectTypeDefinitionNode)
    (tys : list CSharpFieldType) :
  typesafeOperation (config this) = true ->
  (forall s, nonEmpty (indentMultiline s 1) = true) ->
  mapM (fun f => resolveFieldType this (iv_type f) false) (input_fields node)
  = Ok tys ->
  InputObjectTypeDefinition this node
  = Ok (indentMultiline
          (blockString
             {| _access := "public"; _kind := Some "class";
                _name := Some (convertSafeName
                                 (convertName (NodeNamed (Some (input_name node)))));
                _implementsStr := [];
                _block :=
                  Some (nl +:+ join nl
                          (zip_with
                             (fun f ty =>
                                indentMultiline
                                  ("[JsonProperty(" +:+ dq +:+ iv_name f +:+ dq
                                   +:+ ")]" +:+ nl +:+
                                   "public " +:+
                                   wrapFieldType ty (listType ty) "List" +:+ " "
                                   +:+ convertSafeName (pascalCase (iv_name f))
                                   +:+ " { get; set; }" +:+ nl) 1)
                             (input_fields node) tys)) |}) 2)
  /\ length tys = length (input_fields node).
Proof.
  intros Hon Hind Htys. unfold InputObjectTypeDefinition. rewrite Hon.
  change (negb true) with false. cbv iota.
  rewrite (input_fields_resolved _ _ Htys). cbn [mbind result_bind]. cbv zeta.
  rewrite (filter_nonEmpty_inputProperty _ _ Hind). split.
  - reflexivity.
  - symmetry. exact (mapM_length _ _ _ Htys).
Qed.

End InputTypes.

(** ** The buffers of a run *)

Lemma linesOf_cons (t : string) (texts : list string) :
  linesOf (t :: texts) = (t +:+ nl) +:+ linesOf texts.
Proof.
  unfold linesOf. destruct texts as [|t' texts]; cbn [List.map String.concat].
  - now rewrite string_app_empty_r.
  - reflexivity.
Qed.

Lemma forEachAppend_lines {A} (f : A -> result string) (l : list A) b r :
  forEachAppend f l b = Ok r ->
  exists texts, mapM f l = Ok texts /\ r = b +:+ linesOf texts.
Proof.
  revert b. induction l as [|x l IH]; intros b E.
  - injection E as <-. exists []. split; [reflexivity|].
    now rewrite string_app_empty_r.
  - cbn [forEachAppend] in E. apply bind_Ok in E as (d & Hd & E).
    apply IH in E as (texts & Htexts & ->).
    exists (d :: texts). split.
    + now rewrite mapM_cons, Hd, Htexts.
    + rewrite linesOf_cons, !string_app_assoc. reflexivity.
Qed.

Lemma mapM_pure {A B} (g : A -> B) (l : list A) (ys : list B) :
  mapM (fun x => Ok (g x)) l = Ok ys -> ys = List.map g l.
Proof.
  revert ys. induction l as [|x l IH]; intros ys E.
  - now injection E as <-.
  - apply mapM_cons_Ok in E as (y & ys' & Hy & Hys & ->).
    injection Hy as <-. cbn [List.map]. f_equal. now apply IH.
Qed.

(** X14: in a run that finishes, every buffer holds the texts of its
    definitions in the order of the combined document (the documents in
    the order given, then the schema), each followed by one line break:
    one text per input type, per fragment (document fragments, then
    external ones), per operation (four buffers) and per enum type. *)
Theorem pluginBuffers_lines `{Helpers} (fuel : nat) (schema : GraphQLSchema)
    (documents : list (list DefinitionNode))
    (rawConfig : CSharpOperationsRawPluginConfig) (buffers : PluginBuffers) :
  pluginBuffers fuel schema documents rawConfig = Ok buffers ->
  let visitor :=
    newVisitor schema (allFragmentsOf schema documents rawConfig) rawConfig in
  let allAst := allAstOf schema documents in
  exists inputs fragments methods requests responses,
    mapM (InputObjectTypeDefinition visitor) (inputTypesOf allAst) = Ok inputs
    /\ inputDefinitions buffers = linesOf inputs
    /\ mapM (fun fragment => getFragmentClass visitor fuel (lf_node fragment))
         (allFragmentsOf schema documents rawConfig) = Ok fragments
    /\ fragmentDefinitions buffers = linesOf fragments
    /\ operationInterfaceMethods buffers
       = linesOf (List.map (getOperationInterfaceMethods visitor)
                    (operationsOf allAst))
    /\ mapM (getOperationConcreteMethod visitor) (operationsOf allAst)
       = Ok methods
    /\ operationDefinitions buffers = linesOf methods
    /\ mapM (getRequestClass visitor) (operationsOf allAst) = Ok requests
    /\ requestDefinitions buffers = linesOf requests
    /\ mapM (getResponseClass visitor fuel) (operationsOf allAst) = Ok responses
    /\ responseDefinitions buffers = linesOf responses
    /\ enumDefinitions buffers
       = linesOf (List.map getEnumDefinition (enumTypesOf allAst)).
Proof.
  intros Hrun visitor allAst. unfold pluginBuffers in Hrun.
  fold visitor allAst in Hrun.
  assert (forall {A} (g : A -> string) l r,
            forEachAppend (fun x => Ok (g x)) l "" = Ok r ->
            r = linesOf (List.map g l)) as Hpure.
  { intros A g l r E. apply forEachAppend_lines in E as (texts & Ht & ->).
    now rewrite (mapM_pure _ _ _ Ht). }
  apply bind_Ok in Hrun as (b1 & H1 & Hrun).
  apply bind_Ok in Hrun as (b2 & H2 & Hrun).
  apply bind_Ok in Hrun as (b3 & H3 & Hrun).
  apply bind_Ok in Hrun as (b4 & H4 & Hrun).
  apply bind_Ok in Hrun as (b5 & H5 & Hrun).
  apply bind_Ok in Hrun as (b6 & H6 & Hrun).
  apply bind_Ok in Hrun as (b7 & H7 & Hrun).
  injection Hrun as <-. cbn.
  apply forEachAppend_lines in H1 as (inputs & Hi & ->).
  apply forEachAppend_lines in H2 as (fragments & Hfr & ->).
  apply Hpure in H3 as ->.
  apply forEachAppend_lines in H4 as (methods & Hm & ->).
  apply forEachAppend_lines in H5 as (requests & Hrq & ->).
  apply forEachAppend_lines in H6 as (responses & Hrs & ->).
  apply Hpure in H7 as ->.
  exists inputs, fragments, methods, requests, responses.
  repeat split; assumption || reflexivity.
Qed.

(** ** Fragments of the documents and external fragments *)

Lemma find_app {A} (p : A -> bool) (l1 l2 : list A) :
  List.find p (l1 ++ l2)
  = match List.find p l1 with Some x => Some x | None => List.find p l2 end.
Proof.
  induction l1 as [|x l1 IH]; [reflexivity|].
  cbn [app List.find]. destruct (p x); [reflexivity|exact IH].
Qed.

(** X15: the lookup of a spread fragment by name, as
    [_getFragmentSpreadDefinition] does it on the fragments [plugin] hands
    to the visitor, finds a fragment of the documents before any external
    fragment: an external fragment is used only when no document fragment
    has the name, and of two document fragments the first. *)
Theorem allFragmentsOf_find `{Helpers} (schema : GraphQLSchema)
    (documents : list (list DefinitionNode))
    (rawConfig : CSharpOperationsRawPluginConfig) (name : string) :
  List.find (fun f => String.eqb (lf_name f) name)
    (_fragments (newVisitor schema (allFragmentsOf schema documents rawConfig)
                   rawConfig))
  = match List.find (fun d => String.eqb (frag_name d) name)
            (fragmentsOf (allAstOf schema documents)) with
    | Some fragmentDef => Some (loadFragment fragmentDef)
    | None =>
        List.find (fun f => String.eqb (lf_name f) name)
          (raw_externalFragments rawConfig)
    end.
Proof.
  cbn [newVisitor _fragments]. unfold allFragmentsOf. rewrite find_app.
  induction (fragmentsOf (allAstOf schema documents)) as [|d l IH];
    [reflexivity|].
  cbn [List.map List.find loadFragment lf_name].
  destruct (String.eqb (frag_name d) name); [reflexivity|exact IH].
Qed.

(** ** Operations of leaf fields *)

Section Leaves.
Context `{Helpers}.
Variable this : CSharpOperationsVisitor.

(** X16: an operation whose root type exists and whose root selections are
    all leaf fields of that type, of types the resolver knows, compiles
    with any depth allowed from one on, fragments or not: the response
    class is a public class under the response class name that holds one
    property per selection, in selection order: the attribute with the
    field name as selected, then the declaration of the wrapped field type
    under the pascal-cased, escaped field name. *)
Theorem getResponseClass_leaves (fuel : nat) (node : OperationDefinitionNode)
    (root : ObjectTypeDefinitionNode) (names : list string)
    (tys : list CSharpFieldType) :
  operationSchemaOf this node = Some root ->
  op_selections node = List.map (fun n => Field n None) names ->
  Forall2 (fun n ty =>
             exists fieldSchema,
               List.find (fun f => String.eqb (fd_name f) n) (obj_fields root)
               = Some fieldSchema
               /\ resolveFieldType this (fd_type fieldSchema) false = Ok ty)
    names tys ->
  getResponseClass this (S fuel) node
  = Ok (blockString
          {| _access := "public"; _kind := Some "class";
             _name := Some (_getResponseClassName node);
             _implementsStr := [];
             _block :=
               Some (nl +:+ join nl
                       (zip_with
                          (fun n ty =>
                             indentMultiline
                               ("[JsonProperty(" +:+ dq +:+ n +:+ dq +:+ ")]"
                                +:+ nl +:+
                                "public " +:+
                                wrapFieldType ty (listType ty) "List" +:+ " "
                                +:+ convertSafeName (pascalCase n)
                                +:+ " { get; set; }" +:+ nl) 1)
                          names tys)) |}).
Proof.
  intros Hroot Hsel Hall. rewrite getResponseClass_unfold, Hroot, Hsel.
  assert (mapM (compileRootSelection this (S fuel) (Some root))
            (List.map (fun n => Field n None) names)
          = Ok (zip_with leafProperty names tys)) as ->; [|reflexivity].
  clear Hsel.
  induction Hall as [|n ty names tys (fs & Hf & Hr) _ IH]; [reflexivity|].
  cbn [List.map zip_with]. rewrite mapM_cons, IH.
  cbn [compileRootSelection].
  rewrite (_getFieldDefinition_found this fuel n None _ _ _ Hf Hr).
  cbn [mbind result_bind]. rewrite propertyText_lines. reflexivity.
Qed.

End Leaves.

(** ** Documents, signatures and spreads *)

(** X17: a visitor never keeps the [graphQLTag] document mode. For a
    visitor as constructed, [_getDocumentNodeVariable] refers to
    [Operations.<name>] exactly in the [external] mode, where an anonymous
    operation is a [TypeError]; in every other mode it returns the verbatim
    literal of the document and needs no name. *)
Theorem _getDocumentNodeVariable_modes `{Helpers} (schema : GraphQLSchema)
    (fragments : list LoadedFragment)
    (rawConfig : CSharpOperationsRawPluginConfig)
    (node : OperationDefinitionNode) :
  let visitor := newVisitor schema fragments rawConfig in
  documentMode (config visitor) <> graphQLTag
  /\ (raw_documentMode rawConfig = Some external ->
      _getDocumentNodeVariable visitor node
      = match op_name node with
        | Some name => Ok ("Operations." +:+ name)
        | None => Throw (TypeError "value")
        end)
  /\ (raw_documentMode rawConfig <> Some external ->
      _getDocumentNodeVariable visitor node
      = Ok ("@" +:+ dq +:+ nl +:+ indentMultiline (_gql node) 4 +:+ dq)).
Proof.
  intros visitor. unfold _getDocumentNodeVariable, nameValue. subst visitor.
  cbn [newVisitor config documentMode].
  destruct (raw_documentMode rawConfig) as [[]|]; cbn [default];
    (split; [discriminate|]); split; try congruence; try reflexivity.
  intros _. destruct (op_name node); reflexivity.
Qed.

Section Signatures.
Context `{Helpers}.
Variable this : CSharpOperationsVisitor.

(** X18: a fragment that is not among the known fragments is an error only
    where it is inlined. Spread as the sole selection of a field it is not
    looked up: the field compiles to a property of the class the spread
    names. Spread beside another selection it throws [Fragment schema not
    found]. *)
Theorem unknown_fragment_asymmetry (fuel : nat) name parent fieldSchema rt
    ghost sibling :
  List.find (fun f => String.eqb (fd_name f) name) (obj_fields parent)
  = Some fieldSchema ->
  resolveFieldType this (fd_type fieldSchema) false = Ok rt ->
  List.find (fun f => String.eqb (lf_name f) ghost) (_fragments this) = None ->
  isOk (_getFieldDefinition this (S fuel) name (Some [FragmentSpread ghost])
          (Some parent)) = true
  /\ _getFieldDefinition this (S (S fuel)) name
       (Some [FragmentSpread ghost; sibling]) (Some parent)
     = Throw (Error ("Fragment schema not found; " +:+ ghost)).
Proof.
  intros Hf Hr Hghost. split.
  - rewrite (_getFieldDefinition_found this fuel name _ _ _ _ Hf Hr).
    reflexivity.
  - rewrite (_getFieldDefinition_found this (S fuel) name _ _ _ _ Hf Hr).
    cbn [soleFragmentSpread]. cbv zeta. rewrite mapM_cons.
    cbn [compileSelection]. rewrite _getFragmentSpreadDefinition_S, Hghost.
    reflexivity.
Qed.

End Signatures.

(** ** The further properties on the samples *)

Lemma findObjectType_first_witness :
  operationSchemaOf Sample2.visitor Sample2.leafQuery
  = Some Sample2.queryType.
Proof.
  destruct (findObjectType_first Sample2.visitor
              (fun n => String.eqb (toLowerCase n) "query")) as (_ & _ & Hfirst).
  refine (Hfirst [InputObjectTypeDefinitionD Sample2.pointInput]
            Sample2.queryType [ObjectTypeDefinition Sample2.userType]
            eq_refl eq_refl _).
  intros o [E|[]]. discriminate.
Defined.

Lemma getOperationConcreteMethod_returns_witness :
  @getOperationConcreteMethod Sample.helpers Sample2.visitor Sample2.anonymousQuery
  = Throw (TypeError "value")
  /\ isOk (@getOperationConcreteMethod Sample.helpers Sample2.visitor
             Sample2.leafQuery) = true.
Proof.
  destruct (@getOperationConcreteMethod_returns Sample.helpers Sample2.visitor
              Sample2.anonymousQuery) as [_ Hanonymous].
  destruct (@getOperationConcreteMethod_returns Sample.helpers Sample2.visitor
              Sample2.leafQuery) as [Hiff _].
  split.
  - apply Hanonymous; [reflexivity|]. vm_compute. eauto.
  - apply Hiff. split; vm_compute; eauto.
Defined.

Lemma plugin_operations_named_witness :
  is_Some (op_name Sample.pingQuery)
  /\ is_Some (operationSchemaOf
                (@newVisitor Sample.helpers Sample.schema
                   (allFragmentsOf Sample.schema Sample.documents
                      (Sample.rawConfig None)) (Sample.rawConfig None))
                Sample.pingQuery).
Proof.
  refine (@plugin_operations_named Sample.helpers 5 Sample.schema
            Sample.documents (Sample.rawConfig None) _ eq_refl
            [OperationDefinitionD Sample.pingQuery;
             FragmentDefinition Sample.userFields] Sample.pingQuery _ _);
    left; reflexivity.
Defined.

Lemma getFragmentClass_absent_type_witness :
  @getFragmentClass Sample.helpers Sample2.visitor 1 Sample2.onNode
  = Throw (TypeError "fields").
Proof.
  refine (@getFragmentClass_absent_type Sample.helpers Sample2.visitor 0
            Sample2.onNode "id" None [] _ eq_refl).
  intros o [E|[E|[E|[]]]]; inversion E; subst o; discriminate.
Defined.

Lemma _getFieldDefinition_absent_inner_type_witness :
  @_getFieldDefinition Sample.helpers Sample2.visitor 2 "node"
    (Some [Field "id" None]) (Some Sample2.queryType)
  = Throw (TypeError "fields").
Proof.
  refine (@_getFieldDefinition_absent_inner_type Sample.helpers Sample2.visitor 0
            "node" Sample2.queryType
            {| fd_name := "node"; fd_type := NamedType "Node" |} Sample2.nodeType
            "id" None [] eq_refl eq_refl _).
  intros o [E|[E|[E|[]]]]; inversion E; subst o; discriminate.
Defined.

Lemma _getFragmentSpreadDefinition_cycle_witness :
  isOk (@_getFragmentSpreadDefinition Sample.helpers Sample2.visitor 7 "chain"
          (Some Sample2.userType)) = false.
Proof.
  refine (@_getFragmentSpreadDefinition_cycle Sample.helpers Sample2.visitor
            "chain" (loadFragment Sample2.chain) eq_refl _ 7
            (Some Sample2.userType)).
  right. right. left. reflexivity.
Defined.

Lemma getRequestClass_unknown_type_witness :
  @getRequestClass Sample.helpers Sample2.visitor Sample2.getUserQuery
  = Throw (TypeError "name").
Proof.
  exact (@getRequestClass_unknown_type Sample.helpers Sample2.visitor
           Sample2.getUserQuery
           [ {| variable_name := "ids";
                variable_type := NonNullType (ListType (NamedType "ID")) |} ]
           {| variable_name := "where"; variable_type := NamedType "Missing" |}
           [] _ eq_refl eq_refl eq_refl).
Defined.

Lemma _gqlInputSignature_required_witness :
  sig_required
    (_gqlInputSignature Sample2.visitor
       {| variable_name := "ids";
          variable_type := NonNullType (ListType (NamedType "ID")) |}) = true.
Proof.
  exact (proj2 (@_gqlInputSignature_required Sample.helpers Sample2.visitor
                  {| variable_name := "ids";
                     variable_type := NonNullType (ListType (NamedType "ID")) |}
                  _ eq_refl)).
Defined.

Lemma resultClassName_collision_witness :
  @resultClassName Sample.helpers "users" Sample.usersType
  = @resultClassName Sample.helpers "user" Sample.meType.
Proof.
  refine (@resultClassName_collision Sample.helpers "user" Sample.usersType
            Sample.meType _ eq_refl eq_refl).
  eexists. reflexivity.
Defined.

Lemma _gql_readVerbatim_witness :
  readVerbatim (@_gql Sample.helpers Sample.pingQuery +:+ dq +:+ ",")
  = Some ("query ping" +:+ nl, ",").
Proof.
  exact (@_gql_readVerbatim Sample.helpers Sample.pingQuery "," eq_refl).
Defined.

Lemma getClientDeclaration_empty_witness :
  getClientDeclaration Sample2.visitor = ""
  /\ clientArgument Sample2.visitor = "".
Proof.
  destruct (getClientDeclaration_empty Sample2.visitor)
    as [Hiff Hedge].
  split.
  - apply Hiff. right. eexists. split; reflexivity.
  - exact (proj1 (Hedge _ eq_refl eq_refl)).
Defined.

Lemma InputObjectTypeDefinition_typesafe_witness :
  @InputObjectTypeDefinition Sample.helpers Sample.visitorTypesafe
    Sample.filterInput
  = Ok ("    public class Filter {" +:+ nl +:+
          "    " +:+ nl +:+
          "      [JsonProperty(" +:+ dq +:+ "color" +:+ dq +:+ ")]" +:+ nl +:+
          "      public Color? Color { get; set; }" +:+ nl +:+
          "      " +:+ nl +:+
          "    }" +:+ nl +:+
          "    ").
Proof.
  refine (eq_trans
            (proj1 (@InputObjectTypeDefinition_typesafe Sample.helpers
                      Sample.visitorTypesafe Sample.filterInput
                      [Sample.colorType] eq_refl _ eq_refl))
            _).
  - intros s. reflexivity.
  - vm_compute. reflexivity.
Defined.

Lemma pluginBuffers_lines_witness :
  exists buffers requests,
    @pluginBuffers Sample.helpers 5 Sample.schema Sample.documents
      (Sample.rawConfig None) = Ok buffers
    /\ requestDefinitions buffers = linesOf requests
    /\ length requests = 1.
Proof.
  eexists. 
  destruct (@pluginBuffers_lines Sample.helpers 5 Sample.schema Sample.documents
              (Sample.rawConfig None) _ eq_refl)
    as (inputs & fragments & methods & requests & responses & _ & _ & _ & _ & _
        & _ & _ & Hrequests & Hbuffer & _).
  exists requests. split; [reflexivity|]. split; [exact Hbuffer|].
  symmetry. exact (mapM_length _ _ _ Hrequests).
Defined.

Lemma getResponseClass_leaves_witness :
  @getResponseClass Sample.helpers Sample2.visitor 1 Sample2.leafQuery
  = Ok ("public class Payload {" +:+ nl +:+
          nl +:+
          "  [JsonProperty(" +:+ dq +:+ "user" +:+ dq +:+ ")]" +:+ nl +:+
          "  public User User { get; set; }" +:+ nl +:+
          "  " +:+ nl +:+
          "  [JsonProperty(" +:+ dq +:+ "users" +:+ dq +:+ ")]" +:+ nl +:+
          "  public List<User> Users { get; set; }" +:+ nl +:+
          "  " +:+ nl +:+
          "}" +:+ nl).
Proof.
  refine (eq_trans
            (@getResponseClass_leaves Sample.helpers Sample2.visitor 0
               Sample2.leafQuery Sample2.queryType ["user"; "users"]
               [Sample2.userLeafType; Sample2.usersLeafType] eq_refl eq_refl _)
            _).
  - repeat constructor; eexists; split; reflexivity.
  - vm_compute. reflexivity.
Defined.

Lemma _getDocumentNodeVariable_modes_witness :
  @_getDocumentNodeVariable Sample.helpers Sample2.visitor Sample2.anonymousQuery
  = Ok ("@" +:+ dq +:+ nl +:+
        Sample.indentMultiline (@_gql Sample.helpers Sample2.anonymousQuery) 4
        +:+ dq).
Proof.
  destruct (@_getDocumentNodeVariable_modes Sample.helpers Sample2.schema
              (allFragmentsOf Sample2.schema Sample2.documents
                 (Sample2.rawConfig true))
              (Sample2.rawConfig true) Sample2.anonymousQuery) as (_ & _ & Hmode).
  apply Hmode. discriminate.
Defined.

Lemma unknown_fragment_asymmetry_witness :
  isOk (@_getFieldDefinition Sample.helpers Sample2.visitor 1 "user"
          (Some [FragmentSpread "ghost"]) (Some Sample2.queryType)) = true
  /\ @_getFieldDefinition Sample.helpers Sample2.visitor 2 "user"
       (Some [FragmentSpread "ghost"; Field "id" None]) (Some Sample2.queryType)
     = Throw (Error "Fragment schema not found; ghost").
Proof.
  exact (@unknown_fragment_asymmetry Sample.helpers Sample2.visitor 0 "user"
           Sample2.queryType {| fd_name := "user"; fd_type := NamedType "User" |}
           Sample2.userLeafType "ghost" (Field "id" None) eq_refl eq_refl eq_refl).
Defined.
